(** * Shallow embedding of the FPGA NPU PCIe driver and its user-space library

    Sources: [software/driver/fpga_npu_driver.c], [software/driver/fpga_npu_enhanced.h],
    [software/userspace/fpga_npu_lib.c], [software/userspace/fpga_npu_lib.h].

    Machine integers are [Z] with their wrap-around written out.  The kernel
    side is a state-passing model of [struct fpga_npu_dev]; MMIO writes
    ([iowrite32]) are recorded, in order, in a log of (register offset, value)
    pairs, so that "no register write" is an observable fact of the model. *)

From Stdlib Require Import ZArith List Bool Lia Permutation.
Import ListNotations.
Open Scope Z_scope.

(** ** Constants *)

Definition EFAULT : Z := 14.
Definition ENOENT : Z := 2.
Definition ENOMEM : Z := 12.
Definition EBUSY : Z := 16.
Definition EINVAL : Z := 22.
Definition ENOTTY : Z := 25.
Definition ETIMEDOUT : Z := 110.
Definition ERESTARTSYS : Z := 512.

Definition u32_mod : Z := 2 ^ 32.
Definition u64_mod : Z := 2 ^ 64.
Definition to_u32 (x : Z) : Z := x mod u32_mod.
Definition to_u64 (x : Z) : Z := x mod u64_mod.

Definition BIT (n : Z) : Z := Z.shiftl 1 n.

(** Register offsets in the control BAR. *)
Definition REG_CONTROL : Z := 0x00.
Definition REG_STATUS : Z := 0x04.
Definition REG_DATA_ADDR : Z := 0x08.
Definition REG_DATA_SIZE : Z := 0x0C.
Definition REG_PERF_CYCLES : Z := 0x18.
Definition REG_TEMPERATURE : Z := 0x20.
Definition REG_POWER : Z := 0x24.
Definition REG_DMA_CTRL : Z := 0x30.
Definition REG_DMA_SRC : Z := 0x34.
Definition REG_DMA_DST : Z := 0x38.
Definition REG_DMA_SIZE : Z := 0x3C.

Definition CTRL_ENABLE : Z := BIT 0.
Definition CTRL_START : Z := BIT 2.
Definition STATUS_DONE : Z := BIT 3.

Definition NPU_MAX_BUFFER_SIZE : Z := 16 * 1024 * 1024.
Definition NPU_MIN_BUFFER_SIZE : Z := 4096.

Definition NPU_DMA_FLAG_BLOCKING : Z := BIT 0.
Definition NPU_INST_FLAG_HIGH_PRIORITY : Z := BIT 1.
Definition NPU_INST_FLAG_PROFILE : Z := BIT 2.

(** [_IOC] encoding of the Linux ioctl numbers. *)
Definition IOC (dir type nr size : Z) : Z :=
  Z.lor (Z.lor (Z.lor (Z.shiftl dir 30) (Z.shiftl size 16)) (Z.shiftl type 8)) nr.
Definition IOW (type nr size : Z) : Z := IOC 1 type nr size.
Definition IOC_TYPE (cmd : Z) : Z := Z.land (Z.shiftr cmd 8) 255.

Definition FPGA_NPU_MAGIC : Z := 78. (* 'N' *)
(** sizeof(struct npu_instruction) = 68, sizeof(struct npu_dma_transfer) = 56. *)
Definition NPU_IOCTL_FREE_BUFFER : Z := IOW FPGA_NPU_MAGIC 0x21 4.
Definition NPU_IOCTL_DMA_TRANSFER : Z := IOW FPGA_NPU_MAGIC 0x30 56.
Definition NPU_IOCTL_EXECUTE_INSTRUCTION : Z := IOW FPGA_NPU_MAGIC 0x40 68.
Definition NPU_IOCTL_WAIT_COMPLETION : Z := IOW FPGA_NPU_MAGIC 0x42 4.

(** ** Driver data model *)

(** [struct npu_dma_buf]: one entry of the DMA buffer registry. *)
Record npu_dma_buf := mk_buf {
  buf_cpu_addr : Z;
  buf_dma_handle : Z;
  buf_size : Z;
  buf_flags : Z;
  buf_buffer_id : Z;
  buf_ref_count : Z
}.

(** The parts of [struct fpga_npu_dev] the operations below read or write.
    [dma_buffers] is the registry list in list order ([list_add_tail] appends).
    [mmio_log] records every [iowrite32] to the control BAR, oldest first;
    [dev_dma_buffer] is the shared DMA buffer as a byte-addressed memory. *)
Record fpga_npu_dev := mk_dev {
  dma_buffers : list npu_dma_buf;
  next_buffer_id : Z;
  device_open : bool;
  interrupt_received : bool;
  dev_dma_buffer : Z -> Z;
  dev_dma_handle : Z;
  dma_size : Z;
  perf_operations : Z;
  temperature_celsius : Z;
  power_consumption_mw : Z;
  thermal_state : Z;
  mmio_log : list (Z * Z)
}.

Definition set_dma_buffers (l : list npu_dma_buf) (d : fpga_npu_dev) : fpga_npu_dev :=
  mk_dev l d.(next_buffer_id) d.(device_open) d.(interrupt_received)
    d.(dev_dma_buffer) d.(dev_dma_handle) d.(dma_size) d.(perf_operations)
    d.(temperature_celsius) d.(power_consumption_mw) d.(thermal_state) d.(mmio_log).

Definition set_next_buffer_id (n : Z) (d : fpga_npu_dev) : fpga_npu_dev :=
  mk_dev d.(dma_buffers) n d.(device_open) d.(interrupt_received)
    d.(dev_dma_buffer) d.(dev_dma_handle) d.(dma_size) d.(perf_operations)
    d.(temperature_celsius) d.(power_consumption_mw) d.(thermal_state) d.(mmio_log).

Definition set_device_open (b : bool) (d : fpga_npu_dev) : fpga_npu_dev :=
  mk_dev d.(dma_buffers) d.(next_buffer_id) b d.(interrupt_received)
    d.(dev_dma_buffer) d.(dev_dma_handle) d.(dma_size) d.(perf_operations)
    d.(temperature_celsius) d.(power_consumption_mw) d.(thermal_state) d.(mmio_log).

Definition set_interrupt_received (b : bool) (d : fpga_npu_dev) : fpga_npu_dev :=
  mk_dev d.(dma_buffers) d.(next_buffer_id) d.(device_open) b
    d.(dev_dma_buffer) d.(dev_dma_handle) d.(dma_size) d.(perf_operations)
    d.(temperature_celsius) d.(power_consumption_mw) d.(thermal_state) d.(mmio_log).

Definition set_dev_dma_buffer (m : Z -> Z) (d : fpga_npu_dev) : fpga_npu_dev :=
  mk_dev d.(dma_buffers) d.(next_buffer_id) d.(device_open) d.(interrupt_received)
    m d.(dev_dma_handle) d.(dma_size) d.(perf_operations)
    d.(temperature_celsius) d.(power_consumption_mw) d.(thermal_state) d.(mmio_log).

Definition set_perf_operations (n : Z) (d : fpga_npu_dev) : fpga_npu_dev :=
  mk_dev d.(dma_buffers) d.(next_buffer_id) d.(device_open) d.(interrupt_received)
    d.(dev_dma_buffer) d.(dev_dma_handle) d.(dma_size) n
    d.(temperature_celsius) d.(power_consumption_mw) d.(thermal_state) d.(mmio_log).

Definition set_thermal (t p st : Z) (d : fpga_npu_dev) : fpga_npu_dev :=
  mk_dev d.(dma_buffers) d.(next_buffer_id) d.(device_open) d.(interrupt_received)
    d.(dev_dma_buffer) d.(dev_dma_handle) d.(dma_size) d.(perf_operations)
    t p st d.(mmio_log).

(** [iowrite32(v, dev->control_bar + reg)] *)
Definition iowrite32 (v reg : Z) (d : fpga_npu_dev) : fpga_npu_dev :=
  mk_dev d.(dma_buffers) d.(next_buffer_id) d.(device_open) d.(interrupt_received)
    d.(dev_dma_buffer) d.(dev_dma_handle) d.(dma_size) d.(perf_operations)
    d.(temperature_celsius) d.(power_consumption_mw) d.(thermal_state)
    (d.(mmio_log) ++ [(reg, to_u32 v)]).

(** ** Registry traversal ([list_for_each_entry] with [break]) *)

Fixpoint find_buf (l : list npu_dma_buf) (id : Z) : option npu_dma_buf :=
  match l with
  | [] => None
  | b :: l' => if buf_buffer_id b =? id then Some b else find_buf l' id
  end.

(** [list_del] of the first entry whose id matches. *)
Fixpoint list_del_id (l : list npu_dma_buf) (id : Z) : list npu_dma_buf :=
  match l with
  | [] => []
  | b :: l' => if buf_buffer_id b =? id then l' else b :: list_del_id l' id
  end.

Definition add_ref (k : Z) (b : npu_dma_buf) : npu_dma_buf :=
  mk_buf b.(buf_cpu_addr) b.(buf_dma_handle) b.(buf_size) b.(buf_flags)
    b.(buf_buffer_id) (b.(buf_ref_count) + k).

(** [atomic_inc] / [atomic_dec] on the buffer found by id (the first match). *)
Fixpoint ref_update (k : Z) (id : Z) (l : list npu_dma_buf) : list npu_dma_buf :=
  match l with
  | [] => []
  | b :: l' => if buf_buffer_id b =? id then add_ref k b :: l' else b :: ref_update k id l'
  end.

(** ** Waiting for the completion interrupt

    What happens while a caller sleeps on [dev->wait_queue] is decided by the
    environment: [irq_at] is the time (ms after the wait starts) at which the
    device raises an interrupt with [STATUS_DONE] set, together with the
    STATUS value the handler reads; [sig_at] is the time a signal reaches the
    sleeping task.  [None] means "never".  Jiffy rounding of
    [msecs_to_jiffies] is not modelled: the bound is the millisecond value. *)
Record wait_env := mk_env {
  irq_at : option (Z * Z);
  sig_at : option Z
}.

(** Interrupt events that happen within the bound [lim] ([None] = unbounded). *)
Definition within (lim : option Z) (t : Z) : bool :=
  match lim with None => true | Some l => t <=? l end.

(** First event of the wait: [Some (inl status)] interrupt, [Some (inr tt)] signal. *)
Definition first_event (env : wait_env) (lim : option Z) : option (Z + unit) :=
  let irq := match irq_at env with
             | Some (t, st) =>
                 (* the handler returns IRQ_NONE when DONE is clear *)
                 if within lim t && negb (Z.land st STATUS_DONE =? 0) then Some (t, st) else None
             | None => None end in
  let sg := match sig_at env with
            | Some t => if within lim t then Some t else None
            | None => None end in
  match irq, sg with
  | Some (ti, st), Some ts => if ti <=? ts then Some (inl st) else Some (inr tt)
  | Some (_, st), None => Some (inl st)
  | None, Some _ => Some (inr tt)
  | None, None => None
  end.

(** [fpga_npu_interrupt]: reads STATUS; if DONE is set, clears it
    (write-1-to-clear) and sets [interrupt_received]. *)
Definition fpga_npu_interrupt (status : Z) (d : fpga_npu_dev) : fpga_npu_dev :=
  if Z.land status STATUS_DONE =? 0 then d
  else set_interrupt_received true (iowrite32 status REG_STATUS d).

(** [wait_event_interruptible(wq, dev->interrupt_received)]: [None] when the
    task sleeps forever; otherwise the macro's value and the device. *)
Definition wait_event_interruptible (env : wait_env) (d : fpga_npu_dev)
  : option (Z * fpga_npu_dev) :=
  if interrupt_received d then Some (0, d)
  else match first_event env None with
       | Some (inl st) =>
           let d' := fpga_npu_interrupt st d in
           if interrupt_received d' then Some (0, d') else None
       | Some (inr _) => Some (- ERESTARTSYS, d)
       | None => None
       end.

(** [wait_event_interruptible_timeout(wq, cond, t)]: positive (remaining
    time, at least 1) when the condition holds, 0 on timeout, [-ERESTARTSYS]
    on a signal. *)
Definition wait_event_interruptible_timeout (env : wait_env) (t : Z) (d : fpga_npu_dev)
  : Z * fpga_npu_dev :=
  if interrupt_received d then (Z.max 1 t, d)
  else match first_event env (Some t) with
       | Some (inl st) =>
           let d' := fpga_npu_interrupt st d in
           if interrupt_received d' then
             (match irq_at env with Some (ti, _) => Z.max 1 (t - ti) | None => 1 end, d')
           else (0, d')
       | Some (inr _) => (- ERESTARTSYS, d)
       | None => (0, d)
       end.

(** The blocking section shared by [NPU_IOCTL_WAIT_COMPLETION] and the
    blocking DMA transfer: timeout 0 waits with [wait_event_interruptible]
    and keeps [ret] (0); otherwise 0 becomes [-ETIMEDOUT], a positive value
    becomes 0; afterwards [interrupt_received] is cleared. *)
Definition npu_wait_irq (env : wait_env) (timeout_ms : Z) (d : fpga_npu_dev)
  : option (Z * fpga_npu_dev) :=
  if timeout_ms =? 0 then
    match wait_event_interruptible env d with
    | Some (_, d') => Some (0, set_interrupt_received false d')
    | None => None
    end
  else
    let (r, d') := wait_event_interruptible_timeout env timeout_ms d in
    let r' := if r =? 0 then - ETIMEDOUT else if r >? 0 then 0 else r in
    Some (r', set_interrupt_received false d').

(** ** Buffer manager *)

(** [npu_alloc_dma_buffer]: [mem] is the outcome of [kzalloc] followed by
    [dma_alloc_coherent] ([Some (cpu_addr, dma_handle)] or [None] when either
    fails).  On success the third component is the assigned [buffer_id]. *)
Definition npu_alloc_dma_buffer (mem : option (Z * Z)) (size flags : Z) (d : fpga_npu_dev)
  : Z * fpga_npu_dev * option Z :=
  if (size <? NPU_MIN_BUFFER_SIZE) || (size >? NPU_MAX_BUFFER_SIZE) then (- EINVAL, d, None)
  else match mem with
       | None => (- ENOMEM, d, None)
       | Some (cpu, handle) =>
           let id := next_buffer_id d in
           let buf := mk_buf cpu handle size flags id 1 in
           let d1 := set_next_buffer_id (to_u32 (id + 1)) d in
           (0, set_dma_buffers (dma_buffers d1 ++ [buf]) d1, Some id)
       end.

(** [npu_free_dma_buffer]: the second component says whether the backing
    memory was released ([dma_free_coherent] + [kfree]). *)
Definition npu_free_dma_buffer (id : Z) (d : fpga_npu_dev) : Z * bool * fpga_npu_dev :=
  match find_buf (dma_buffers d) id with
  | None => (- ENOENT, false, d)
  | Some b =>
      let d1 := set_dma_buffers (list_del_id (dma_buffers d) id) d in
      (0, buf_ref_count b - 1 =? 0, d1)
  end.

(** ** DMA transfer and instruction submission *)

(** [struct npu_dma_transfer] (C keeps struct tags apart from function names). *)
Record npu_dma_transfer_s := mk_xfer {
  xfer_buffer_id : Z;
  xfer_offset : Z;
  xfer_size : Z;
  xfer_direction : Z;
  xfer_flags : Z;
  xfer_user_addr : Z;
  xfer_timeout_ms : Z
}.

(** [npu_dma_transfer]: [None] when the blocking wait never returns.
    [transfer->offset + transfer->size] is a [__u64] addition. *)
Definition npu_dma_transfer (env : wait_env) (t : npu_dma_transfer_s) (d : fpga_npu_dev)
  : option (Z * fpga_npu_dev) :=
  let id := xfer_buffer_id t in
  match find_buf (dma_buffers d) id with
  | None => Some (- ENOENT, d)
  | Some buf =>
      let d1 := set_dma_buffers (ref_update 1 id (dma_buffers d)) d in
      let out r dx := Some (r, set_dma_buffers (ref_update (-1) id (dma_buffers dx)) dx) in
      if to_u64 (xfer_offset t + xfer_size t) >? buf_size buf then out (- EINVAL) d1
      else
        let d2 := iowrite32 (to_u64 (buf_dma_handle buf + xfer_offset t)) REG_DMA_SRC d1 in
        let d3 := iowrite32 (xfer_user_addr t) REG_DMA_DST d2 in
        let d4 := iowrite32 (xfer_size t) REG_DMA_SIZE d3 in
        let dma_ctrl := Z.lor (xfer_direction t) (Z.shiftl (xfer_flags t) 8) in
        let d5 := iowrite32 dma_ctrl REG_DMA_CTRL d4 in
        if negb (Z.land (xfer_flags t) NPU_DMA_FLAG_BLOCKING =? 0) then
          match npu_wait_irq env (xfer_timeout_ms t) d5 with
          | Some (r, d6) => out r d6
          | None => None
          end
        else out 0 d5
  end.

(** [struct npu_instruction] (driver side). *)
Record npu_instruction := mk_inst {
  operation : Z;
  src1_addr : Z;
  src2_addr : Z;
  dst_addr : Z;
  inst_size : Z;
  inst_params : list Z;
  inst_flags : Z
}.

(** [npu_execute_instruction] *)
Definition npu_execute_instruction (inst : npu_instruction) (d : fpga_npu_dev)
  : Z * fpga_npu_dev :=
  let instruction_word :=
    to_u32 (Z.lor (Z.lor (Z.lor (Z.shiftl (to_u32 (operation inst)) 24)
                                (Z.shiftl (Z.land (src1_addr inst) 0xFF) 16))
                         (Z.shiftl (Z.land (src2_addr inst) 0xFF) 8))
                  (Z.land (dst_addr inst) 0xFF)) in
  let d1 := iowrite32 instruction_word REG_DATA_ADDR d in
  let d2 := iowrite32 (inst_size inst) REG_DATA_SIZE d1 in
  let ctrl0 := Z.lor CTRL_ENABLE CTRL_START in
  let ctrl := if Z.land (inst_flags inst) NPU_INST_FLAG_HIGH_PRIORITY =? 0 then ctrl0
              else Z.lor ctrl0 (BIT 8) in
  let d3 := iowrite32 ctrl REG_CONTROL d2 in
  let d4 := if Z.land (inst_flags inst) NPU_INST_FLAG_PROFILE =? 0 then d3
            else set_perf_operations (to_u64 (perf_operations d3 + 1)) d3 in
  (0, d4).

(** ** Sessions: [fpga_npu_open] / [fpga_npu_release]

    Both run under [dev_mutex]; concurrent calls are serialised by it, so a
    set of concurrent calls behaves as some sequence of them in the order the
    mutex is acquired.  [lock_ok] is the outcome of [mutex_lock_interruptible]:
    [false] when a signal arrives while the caller waits for the mutex. *)
Definition fpga_npu_open (lock_ok : bool) (d : fpga_npu_dev) : Z * fpga_npu_dev :=
  if negb lock_ok then (- ERESTARTSYS, d)
  else if device_open d then (- EBUSY, d)
  else (0, set_device_open true d).

Definition fpga_npu_release (d : fpga_npu_dev) : Z * fpga_npu_dev :=
  (0, set_device_open false d).

Inductive session_op := Open (lock_ok : bool) | Close.

(** Runs the calls in mutex order; returns each call's return value. *)
Fixpoint run_sessions (ops : list session_op) (d : fpga_npu_dev) : list Z * fpga_npu_dev :=
  match ops with
  | [] => ([], d)
  | op :: ops' =>
      let (r, d1) := match op with
                     | Open ok => fpga_npu_open ok d
                     | Close => fpga_npu_release d
                     end in
      let (rs, d2) := run_sessions ops' d1 in (r :: rs, d2)
  end.

(** ** Thermal monitor *)

(** [npu_thermal_monitor]: [temp] and [power] are the values read from
    [REG_TEMPERATURE] and [REG_POWER]; [now] is [jiffies] in ms.  Returns the
    device and the expiry the timer is re-armed with. *)
Definition npu_thermal_monitor (temp power now : Z) (d : fpga_npu_dev) : fpga_npu_dev * Z :=
  let st := if temp >? 85 then 2 else if temp >? 75 then 1 else 0 in
  (set_thermal temp power st d, now + 5000).

(** ** Performance counters

    [npu_get_performance_counters] reads the two halves of the cycle counter
    inside one expression; C leaves the order of the two [ioread32] calls
    unspecified, so [hi_first] chooses it.  The hardware is a function from
    the index of an MMIO read (within this call) and the register offset to
    the value read.  The trace records lock/unlock and every read. *)
Inductive perf_event := PerfLock | PerfUnlock | PerfRead (reg : Z).

Record perf_snapshot := mk_snap {
  snap_cycles : Z;
  snap_temperature : Z;
  snap_power : Z
}.

Definition npu_get_performance_counters (hi_first : bool) (hw : nat -> Z -> Z)
  : perf_snapshot * list perf_event :=
  let hi_reg := REG_PERF_CYCLES + 4 in
  let lo_reg := REG_PERF_CYCLES in
  let '(hi, lo, reads) :=
    if hi_first then (hw 0%nat hi_reg, hw 1%nat lo_reg, [PerfRead hi_reg; PerfRead lo_reg])
    else (hw 1%nat hi_reg, hw 0%nat lo_reg, [PerfRead lo_reg; PerfRead hi_reg]) in
  let cycles := to_u64 (Z.lor (Z.shiftl (to_u32 hi) 32) (to_u32 lo)) in
  let temp := to_u32 (hw 2%nat REG_TEMPERATURE) in
  let pw := to_u32 (hw 3%nat REG_POWER) in
  (mk_snap cycles temp pw,
   [PerfLock] ++ reads ++ [PerfRead REG_TEMPERATURE; PerfRead REG_POWER; PerfUnlock]).

(** ** Device-file entry points *)

(** Outcome of a system call in the model: it returns, it sleeps forever, or
    it takes a branch this development does not model. *)
Inductive io_outcome (A : Type) := Done (x : A) | Blocked | OutOfModel.
Arguments Done {A} x.
Arguments Blocked {A}.
Arguments OutOfModel {A}.

(** [fpga_npu_write] (legacy path): copies the payload into the shared DMA
    buffer and starts the NPU. *)
Definition fpga_npu_write (bytes : list Z) (d : fpga_npu_dev) : Z * fpga_npu_dev :=
  let len := Z.min (Z.of_nat (length bytes)) (dma_size d) in
  let d1 := set_dev_dma_buffer
              (fun i => if (0 <=? i) && (i <? len) then nth (Z.to_nat i) bytes 0
                        else dev_dma_buffer d i) d in
  let d2 := iowrite32 (dev_dma_handle d) REG_DATA_ADDR d1 in
  let d3 := iowrite32 len REG_DATA_SIZE d2 in
  let d4 := iowrite32 (Z.lor CTRL_ENABLE CTRL_START) REG_CONTROL d3 in
  (len, d4).

(** What [copy_from_user] reads through the ioctl argument. *)
Inductive ioctl_arg :=
  | ArgNone
  | ArgU32 (v : Z)
  | ArgInst (i : npu_instruction)
  | ArgXfer (t : npu_dma_transfer_s).

(** [fpga_npu_ioctl], for the commands the claims are about.  Every command
    with a foreign type byte is refused first, as in the source. *)
Definition fpga_npu_ioctl (env : wait_env) (cmd : Z) (arg : ioctl_arg) (d : fpga_npu_dev)
  : io_outcome (Z * fpga_npu_dev) :=
  if negb (IOC_TYPE cmd =? FPGA_NPU_MAGIC) then Done (- ENOTTY, d)
  else if cmd =? NPU_IOCTL_WAIT_COMPLETION then
    match arg with
    | ArgU32 t => match npu_wait_irq env t d with Some p => Done p | None => Blocked end
    | _ => OutOfModel
    end
  else if cmd =? NPU_IOCTL_EXECUTE_INSTRUCTION then
    match arg with ArgInst i => Done (npu_execute_instruction i d) | _ => OutOfModel end
  else if cmd =? NPU_IOCTL_FREE_BUFFER then
    match arg with
    | ArgU32 id => let '(r, _, d') := npu_free_dma_buffer id d in Done (r, d')
    | _ => OutOfModel
    end
  else if cmd =? NPU_IOCTL_DMA_TRANSFER then
    match arg with
    | ArgXfer t => match npu_dma_transfer env t d with Some p => Done p | None => Blocked end
    | _ => OutOfModel
    end
  else OutOfModel.

(** ** User-space library ([fpga_npu_lib.c]) *)

(** The two system calls the library functions below issue. *)
Class Kernel (K : Type) := {
  k_write : list Z -> K -> io_outcome (Z * K);
  k_ioctl : Z -> ioctl_arg -> K -> io_outcome (Z * K)
}.

(** The kernel is the driver above, with the environment of its waits. *)
Record npu_system := mk_sys { sdev : fpga_npu_dev; senv : wait_env }.

#[export] Instance driver_kernel : Kernel npu_system := {
  k_write bytes s := let (r, d) := fpga_npu_write bytes (sdev s) in Done (r, mk_sys d (senv s));
  k_ioctl cmd arg s :=
    match fpga_npu_ioctl (senv s) cmd arg (sdev s) with
    | Done (r, d) => Done (r, mk_sys d (senv s))
    | Blocked => Blocked
    | OutOfModel => OutOfModel
    end
}.

(** The unit tests' mock ([__wrap_ioctl] returns 0 unless told to fail);
    [write] accepts every byte. *)
#[export] Instance mock_kernel : Kernel bool := {
  k_write bytes fail := Done (Z.of_nat (length bytes), fail);
  k_ioctl _ _ fail := Done (if fail then -1 else 0, fail)
}.

Module Lib.

Definition NPU_SUCCESS : Z := 0.
Definition NPU_ERROR_DEVICE : Z := -2.
Definition NPU_ERROR_MEMORY : Z := -3.
Definition NPU_ERROR_INVALID : Z := -5.
Definition MAX_BUFFER_SIZE : Z := 1024 * 1024.
Definition NPU_OP_MATMUL : Z := 6.

(** [struct npu_context]: the legacy shared buffer and its fill offset.
    NULL-pointer guards are not modelled: every pointer is valid. *)
Record npu_context := mk_ctx {
  buffer : list Z;
  buffer_size : Z;
  buffer_offset : Z
}.

(** [npu_tensor_t]; [tdata] are the bytes [data] points to. *)
Record npu_tensor_t := mk_tensor {
  tdata : list Z;
  tsize : Z;
  dims : list Z
}.
Definition dim (t : npu_tensor_t) (i : nat) : Z := nth i (dims t) 0.

(** [npu_instruction_t] (user-space layout: four parameters). *)
Record npu_instruction_t := mk_uinst {
  op : Z;
  usrc1 : Z;
  usrc2 : Z;
  udst : Z;
  usize : Z;
  params : list Z
}.

(** Little-endian bytes of a 32-bit word, and of the 36-byte instruction. *)
Definition le32 (w : Z) : list Z :=
  [Z.land w 255; Z.land (Z.shiftr w 8) 255; Z.land (Z.shiftr w 16) 255;
   Z.land (Z.shiftr w 24) 255].
Definition inst_bytes (i : npu_instruction_t) : list Z :=
  flat_map (fun w => le32 (to_u32 w))
    ([op i; usrc1 i; usrc2 i; udst i; usize i] ++ map (fun k => nth k (params i) 0) [0; 1; 2; 3]%nat).
Definition sizeof_npu_instruction_t : Z := 36.

(** [memcpy(buf + off, src, n)] *)
Definition splice (buf : list Z) (off : Z) (src : list Z) : list Z :=
  firstn (Z.to_nat off) buf ++ src ++ skipn (Z.to_nat off + length src) buf.

Section WithKernel.
Context {K : Type} `{Kernel K}.

(** The library's state monad: its context and the kernel. *)
Definition M (A : Type) := npu_context * K -> io_outcome (A * (npu_context * K)).
Definition ret {A} (x : A) : M A := fun s => Done (x, s).
Definition bind {A B} (m : M A) (f : A -> M B) : M B :=
  fun s => match m s with
           | Done (x, s') => f x s'
           | Blocked => Blocked
           | OutOfModel => OutOfModel
           end.
Local Notation "x <- m ;; k" := (bind m (fun x => k)) (at level 61, m at next level, right associativity).

Definition get_ctx : M npu_context := fun s => Done (fst s, s).
(** Undefined behaviour of the C code (an access outside an object). *)
Definition out_of_model {A} : M A := fun _ => OutOfModel.
Definition put_ctx (c : npu_context) : M unit := fun s => Done (tt, (c, snd s)).
(** [write(ctx->fd, ...)] and [ioctl(ctx->fd, ...)]: -1 on a kernel error. *)
Definition sys_write (bytes : list Z) : M Z :=
  fun s => match k_write bytes (snd s) with
           | Done (r, k) => Done (if r <? 0 then -1 else r, (fst s, k))
           | Blocked => Blocked
           | OutOfModel => OutOfModel
           end.
Definition sys_ioctl (cmd : Z) (arg : ioctl_arg) : M Z :=
  fun s => match k_ioctl cmd arg (snd s) with
           | Done (r, k) => Done (if r <? 0 then -1 else r, (fst s, k))
           | Blocked => Blocked
           | OutOfModel => OutOfModel
           end.

(** [npu_execute_instruction] (library): copies the instruction into the
    shared buffer and [write]s it to the device. *)
Definition npu_execute_instruction (inst : npu_instruction_t) : M Z :=
  ctx <- get_ctx ;;
  let b := splice (buffer ctx) 0 (inst_bytes inst) in
  _ <- put_ctx (mk_ctx b (buffer_size ctx) (buffer_offset ctx)) ;;
  n <- sys_write (firstn (Z.to_nat sizeof_npu_instruction_t) b) ;;
  ret (if n =? sizeof_npu_instruction_t then NPU_SUCCESS else NPU_ERROR_DEVICE).

(** [npu_wait_completion]: issues [ioctl(ctx->fd, 1, 0)]; [timeout_ms] is unused. *)
Definition npu_wait_completion (timeout_ms : Z) : M Z :=
  r <- sys_ioctl 1 ArgNone ;;
  ret (if r <? 0 then NPU_ERROR_DEVICE else NPU_SUCCESS).

(** [copy_tensor_to_buffer]: returns the status and the offset used. *)
Definition copy_tensor_to_buffer (t : npu_tensor_t) : M (Z * Z) :=
  ctx <- get_ctx ;;
  if to_u64 (buffer_offset ctx + tsize t) >? buffer_size ctx then ret (NPU_ERROR_MEMORY, 0)
  (* the [size_t] sum wrapped: [memcpy] writes past the end of the buffer *)
  else if buffer_offset ctx + tsize t >? buffer_size ctx then out_of_model
  else
    let off := buffer_offset ctx in
    let b := splice (buffer ctx) off (firstn (Z.to_nat (tsize t)) (tdata t)) in
    _ <- put_ctx (mk_ctx b (buffer_size ctx) (to_u32 (off + tsize t))) ;;
    ret (NPU_SUCCESS, off).

(** [copy_tensor_from_buffer]: returns the status and the tensor written back. *)
Definition copy_tensor_from_buffer (t : npu_tensor_t) (off : Z) : M (Z * npu_tensor_t) :=
  ctx <- get_ctx ;;
  if to_u64 (off + tsize t) >? buffer_size ctx then ret (NPU_ERROR_MEMORY, t)
  (* the [size_t] sum wrapped: [memcpy] reads past the end of the buffer *)
  else if off + tsize t >? buffer_size ctx then out_of_model
  else
    let bytes := firstn (Z.to_nat (tsize t)) (skipn (Z.to_nat off) (buffer ctx)) in
    ret (NPU_SUCCESS, mk_tensor (bytes ++ skipn (Z.to_nat (tsize t)) (tdata t)) (tsize t) (dims t)).

(** [npu_matrix_multiply]: returns the status and the result tensor [c]. *)
Definition npu_matrix_multiply (a b c : npu_tensor_t) : M (Z * npu_tensor_t) :=
  ctx <- get_ctx ;;
  _ <- put_ctx (mk_ctx (buffer ctx) (buffer_size ctx) 0) ;;
  ra <- copy_tensor_to_buffer a ;;
  if negb (fst ra =? NPU_SUCCESS) then ret (fst ra, c) else
  rb <- copy_tensor_to_buffer b ;;
  if negb (fst rb =? NPU_SUCCESS) then ret (fst rb, c) else
  rc <- copy_tensor_to_buffer c ;;
  if negb (fst rc =? NPU_SUCCESS) then ret (fst rc, c) else
  let inst := mk_uinst NPU_OP_MATMUL (snd ra) (snd rb) (snd rc) (to_u32 (tsize c))
                [dim a 2; dim a 3; dim b 3; 0] in
  r <- npu_execute_instruction inst ;;
  if negb (r =? NPU_SUCCESS) then ret (r, c) else
  w <- npu_wait_completion 0 ;;
  if negb (w =? NPU_SUCCESS) then ret (w, c) else
  copy_tensor_from_buffer c (snd rc).

End WithKernel.
End Lib.

(** ** Traces of buffer-manager calls *)

(** The device right after [fpga_npu_probe]: empty registry, first id 1,
    no session, a zeroed 64 KiB shared buffer ([dma_alloc_coherent]);
    [mmio_log] starts empty (it records writes from here on). *)
Definition probe_dev (dma_handle : Z) : fpga_npu_dev :=
  mk_dev [] 1 false false (fun _ => 0) dma_handle 65536 0 0 0 0 [].

(** One allocate-then-free round of a 4 KiB buffer (allocation succeeding
    at [mem]). *)
Definition alloc_free_round (mem : Z * Z) (d : fpga_npu_dev) : fpga_npu_dev :=
  let '(_, d1, oid) := npu_alloc_dma_buffer (Some mem) 4096 0 d in
  match oid with
  | Some id => let '(_, _, d2) := npu_free_dma_buffer id d1 in d2
  | None => d1
  end.

Fixpoint alloc_free_rounds (n : nat) (mem : Z * Z) (d : fpga_npu_dev) : fpga_npu_dev :=
  match n with
  | O => d
  | S n' => alloc_free_rounds n' mem (alloc_free_round mem d)
  end.

(** A cycle counter that rolls over bit 32 between the first and the second
    MMIO read: 0xFFFFFFFF at read 0, 0x100000000 afterwards. *)
Definition rolling_counter (k : nat) (reg : Z) : Z :=
  let c := match k with O => 2 ^ 32 - 1 | _ => 2 ^ 32 end in
  if reg =? REG_PERF_CYCLES + 4 then Z.shiftr c 32
  else if reg =? REG_PERF_CYCLES then c mod 2 ^ 32 else 0.

(** * Further code of the driver and the library *)

(** ** Driver: [fpga_npu_poll] *)

Definition STATUS_READY : Z := BIT 0.
Definition POLLIN : Z := 0x0001.
Definition POLLOUT : Z := 0x0004.
Definition POLLRDNORM : Z := 0x0040.
Definition POLLWRNORM : Z := 0x0100.

(** [fpga_npu_poll]; [status] is the value [ioread32(REG_STATUS)] returns. *)
Definition fpga_npu_poll (status : Z) (d : fpga_npu_dev) : Z :=
  let mask := if interrupt_received d then Z.lor POLLIN POLLRDNORM else 0 in
  if Z.land status STATUS_READY =? 0 then mask
  else Z.lor mask (Z.lor POLLOUT POLLWRNORM).

(** [a[n] = x] on an array, as a list (no effect out of range). *)
Fixpoint set_nth {A : Type} (n : nat) (x : A) (l : list A) : list A :=
  match l, n with
  | [], _ => []
  | _ :: l', O => x :: l'
  | y :: l', S n' => y :: set_nth n' x l'
  end.

(** ** Library: further operations on the legacy context *)

Module LibExt.

Definition NPU_OP_ADD : Z := 1.
Definition NPU_OP_MUL : Z := 3.
Definition NPU_OP_RELU : Z := 7.
Definition NPU_INST_FLAG_ASYNC : Z := BIT 0.

(** [npu_alloc]: bump allocation in the legacy shared buffer; the result is
    the offset of the returned pointer from [ctx->buffer] ([None] = NULL).
    [buffer_offset + size] is computed in [size_t]; the new offset is
    stored back into the 32-bit [buffer_offset]. *)
Definition npu_alloc (size : Z) (ctx : Lib.npu_context) : option Z * Lib.npu_context :=
  if size =? 0 then (None, ctx)
  else if to_u64 (Lib.buffer_offset ctx + size) >? Lib.buffer_size ctx then (None, ctx)
  else (Some (Lib.buffer_offset ctx),
        Lib.mk_ctx (Lib.buffer ctx) (Lib.buffer_size ctx) (to_u32 (Lib.buffer_offset ctx + size))).

Section WithKernel.
Context {K : Type} `{Kernel K}.
Local Notation "x <- m ;; k" := (Lib.bind m (fun x => k))
  (at level 61, m at next level, right associativity).

(** [npu_execute_batch]: [count] instructions read from [instructions];
    [batch_size = count * sizeof(npu_instruction_t)] in [size_t]. *)
Definition npu_execute_batch (instructions : list Lib.npu_instruction_t) (count : Z) : Lib.M Z :=
  ctx <- Lib.get_ctx ;;
  let batch_size := to_u64 (count * Lib.sizeof_npu_instruction_t) in
  if count =? 0 then Lib.ret Lib.NPU_ERROR_INVALID
  else if batch_size >? Lib.buffer_size ctx then Lib.ret Lib.NPU_ERROR_MEMORY
  else
    let b := Lib.splice (Lib.buffer ctx) 0
               (firstn (Z.to_nat batch_size) (flat_map Lib.inst_bytes instructions)) in
    _ <- Lib.put_ctx (Lib.mk_ctx b (Lib.buffer_size ctx) (Lib.buffer_offset ctx)) ;;
    n <- Lib.sys_write (firstn (Z.to_nat batch_size) b) ;;
    Lib.ret (if n =? batch_size then Lib.NPU_SUCCESS else Lib.NPU_ERROR_DEVICE).

(** [npu_get_status]: issues [ioctl(ctx->fd, 0, status)]. *)
Definition npu_get_status : Lib.M Z :=
  r <- Lib.sys_ioctl 0 ArgNone ;;
  Lib.ret (if r <? 0 then Lib.NPU_ERROR_DEVICE else Lib.NPU_SUCCESS).

(** [npu_add] and [npu_multiply]: one zeroed instruction carrying only the
    operation and [c->size], then a wait. *)
Definition npu_add (a b c : Lib.npu_tensor_t) : Lib.M Z :=
  let inst := Lib.mk_uinst NPU_OP_ADD 0 0 0 (to_u32 (Lib.tsize c)) [0; 0; 0; 0] in
  r <- Lib.npu_execute_instruction inst ;;
  if negb (r =? Lib.NPU_SUCCESS) then Lib.ret r else Lib.npu_wait_completion 0.

Definition npu_multiply (a b c : Lib.npu_tensor_t) : Lib.M Z :=
  let inst := Lib.mk_uinst NPU_OP_MUL 0 0 0 (to_u32 (Lib.tsize c)) [0; 0; 0; 0] in
  r <- Lib.npu_execute_instruction inst ;;
  if negb (r =? Lib.NPU_SUCCESS) then Lib.ret r else Lib.npu_wait_completion 0.

(** [npu_relu]: submits a driver [struct npu_instruction] through
    NPU_IOCTL_EXECUTE_INSTRUCTION, then waits. *)
Definition npu_relu (input output : Lib.npu_tensor_t) : Lib.M Z :=
  if negb (Lib.tsize input =? Lib.tsize output) then Lib.ret Lib.NPU_ERROR_INVALID
  else
    let inst := mk_inst NPU_OP_RELU 0 0 0 (to_u32 (Lib.tsize input)) (repeat 0 8)
                  NPU_INST_FLAG_ASYNC in
    r <- Lib.sys_ioctl NPU_IOCTL_EXECUTE_INSTRUCTION (ArgInst inst) ;;
    if r <? 0 then Lib.ret Lib.NPU_ERROR_DEVICE else Lib.npu_wait_completion 0.

End WithKernel.

(** A recording kernel for tests: every [write] accepts all bytes, every
    [ioctl] returns 0, and the calls are logged in order. *)
Inductive syscall :=
  | SysWrite (bytes : list Z)
  | SysIoctl (cmd : Z) (arg : ioctl_arg).

#[global] Instance trace_kernel : Kernel (list syscall) := {
  k_write bytes tr := Done (Z.of_nat (length bytes), tr ++ [SysWrite bytes]);
  k_ioctl cmd arg tr := Done (0, tr ++ [SysIoctl cmd arg])
}.

End LibExt.

(** ** Library: managed DMA buffers *)

Module Managed.

Definition MAX_MANAGED_BUFFERS : nat := 64.

(** [struct npu_buffer] (its [ctx] back pointer is always the owning context). *)
Record npu_buffer := mk_nbuf {
  nb_buffer_id : Z;
  nb_size : Z;
  nb_flags : Z;
  nb_mapped_ptr : Z;
  nb_physical_addr : Z;
  nb_is_mapped : bool
}.

(** The managed part of [struct npu_context]: the slot array of pointers
    ([None] = NULL), the [malloc]ed [struct npu_buffer] objects by address,
    and the two counters. *)
Record mctx := mk_mctx {
  managed_buffers : list (option Z);
  heap : Z -> option npu_buffer;
  total_allocated : Z;
  active_buffers : Z
}.

Definition heap_upd (h : Z -> option npu_buffer) (p : Z) (v : option npu_buffer) :
  Z -> option npu_buffer := fun q => if q =? p then v else h q.

Fixpoint find_slot_from (i : nat) (l : list (option Z)) : Z :=
  match l with
  | [] => -1
  | None :: _ => Z.of_nat i
  | Some _ :: l' => find_slot_from (S i) l'
  end.

(** [find_buffer_slot]: first NULL slot among the 64, or -1. *)
Definition find_buffer_slot (c : mctx) : Z :=
  find_slot_from 0 (firstn MAX_MANAGED_BUFFERS (managed_buffers c)).

(** [npu_buffer_alloc]: [addr] is what [malloc] returns ([None] = NULL),
    [reply] the driver's answer to NPU_IOCTL_ALLOC_BUFFER: [Some (buffer_id,
    physical_addr)], or [None] when the ioctl fails.  Returns the handle. *)
Definition npu_buffer_alloc (size flags : Z) (addr : option Z) (reply : option (Z * Z))
  (c : mctx) : option Z * mctx :=
  if size =? 0 then (None, c)
  else
    let slot := find_buffer_slot c in
    if slot <? 0 then (None, c)
    else match addr with
         | None => (None, c)
         | Some p =>
             match reply with
             | None => (None, c)
             | Some (id, phys) =>
                 let b := mk_nbuf id size flags 0 phys false in
                 (Some p, mk_mctx (set_nth (Z.to_nat slot) (Some p) (managed_buffers c))
                            (heap_upd (heap c) p (Some b))
                            (to_u64 (total_allocated c + size))
                            (to_u32 (active_buffers c + 1)))
             end
         end.

(** [npu_buffer_unmap]; [munmap_ok] is the outcome of [munmap].  A handle
    that names no live object is outside the C semantics and is answered
    like NULL. *)
Definition npu_buffer_unmap (p ptr : Z) (munmap_ok : bool) (c : mctx) : Z * mctx :=
  if (p =? 0) || (ptr =? 0) then (Lib.NPU_ERROR_INVALID, c)
  else match heap c p with
       | None => (Lib.NPU_ERROR_INVALID, c)
       | Some b =>
           if negb (nb_is_mapped b) || negb (nb_mapped_ptr b =? ptr) then (Lib.NPU_ERROR_INVALID, c)
           else if negb munmap_ok then (Lib.NPU_ERROR_DEVICE, c)
           else (Lib.NPU_SUCCESS,
                 mk_mctx (managed_buffers c)
                   (heap_upd (heap c) p
                      (Some (mk_nbuf (nb_buffer_id b) (nb_size b) (nb_flags b) 0
                               (nb_physical_addr b) false)))
                   (total_allocated c) (active_buffers c))
       end.

(** Clears the first slot holding [p]. *)
Fixpoint clear_slot (p : Z) (l : list (option Z)) : list (option Z) :=
  match l with
  | [] => []
  | Some q :: l' => if q =? p then None :: l' else Some q :: clear_slot p l'
  | None :: l' => None :: clear_slot p l'
  end.

(** [npu_buffer_free]: [free_ok] is the outcome of NPU_IOCTL_FREE_BUFFER. *)
Definition npu_buffer_free (p : Z) (munmap_ok free_ok : bool) (c : mctx) : Z * mctx :=
  if p =? 0 then (Lib.NPU_ERROR_INVALID, c)
  else match heap c p with
       | None => (Lib.NPU_ERROR_INVALID, c)
       | Some b =>
           let c1 := if nb_is_mapped b && negb (nb_mapped_ptr b =? 0)
                     then snd (npu_buffer_unmap p (nb_mapped_ptr b) munmap_ok c) else c in
           if negb free_ok then (Lib.NPU_ERROR_DEVICE, c1)
           else (Lib.NPU_SUCCESS,
                 mk_mctx (clear_slot p (managed_buffers c1)) (heap_upd (heap c1) p None)
                   (to_u64 (total_allocated c1 - nb_size b))
                   (to_u32 (active_buffers c1 - 1)))
       end.

(** [npu_get_memory_stats]: (total_allocated, total_free, buffer_count). *)
Definition npu_get_memory_stats (c : mctx) : Z * Z * Z :=
  (total_allocated c, to_u64 (256 * 1024 * 1024 - total_allocated c), active_buffers c).

(** Bookkeeping the context is meant to keep. *)
Definition slot_sum (h : Z -> option npu_buffer) (l : list (option Z)) : Z :=
  fold_right (fun o acc => match o with
                           | Some p => match h p with Some b => nb_size b | None => 0 end + acc
                           | None => acc
                           end) 0 l.

Definition slot_count (l : list (option Z)) : Z :=
  Z.of_nat (length (filter (fun o => match o with Some _ => true | None => false end) l)).

Definition live (l : list (option Z)) : list Z :=
  flat_map (fun o => match o with Some p => [p] | None => [] end) l.

Definition mctx_ok (c : mctx) : Prop :=
  length (managed_buffers c) = MAX_MANAGED_BUFFERS /\
  NoDup (live (managed_buffers c)) /\
  (forall p, In p (live (managed_buffers c)) -> p <> 0 /\ heap c p <> None) /\
  total_allocated c = to_u64 (slot_sum (heap c) (managed_buffers c)) /\
  active_buffers c = slot_count (managed_buffers c).

(** The managed part of the context as [npu_init] leaves it. *)
Definition init_mctx : mctx := mk_mctx (repeat None MAX_MANAGED_BUFFERS) (fun _ => None) 0 0.

(** A context whose 64 slots are all taken. *)
Definition full_mctx : mctx := mk_mctx (repeat (Some 4096) MAX_MANAGED_BUFFERS) (fun _ => None) 0 0.

End Managed.

(** ** Library: tensor descriptors and host-side tensor operations *)

Module Tensor.

(** [npu_tensor_t] with its [data] pointer value and the bytes it points to. *)
Record npu_tensor_t := mk_tensor {
  data : Z;
  mem : list Z;
  size : Z;
  dims : list Z;
  dtype : Z
}.

Definition dim (t : npu_tensor_t) (i : nat) : Z := nth i (dims t) 0.

(** [npu_dtype_t] of [fpga_npu_lib.h]. *)
Definition NPU_DTYPE_INT8 : Z := 0.
Definition NPU_DTYPE_INT16 : Z := 1.
Definition NPU_DTYPE_INT32 : Z := 2.
Definition NPU_DTYPE_FLOAT32 : Z := 3.

Definition element_size (dtype : Z) : Z :=
  if dtype =? NPU_DTYPE_INT8 then 1
  else if dtype =? NPU_DTYPE_INT16 then 2
  else if dtype =? NPU_DTYPE_INT32 then 4
  else if dtype =? NPU_DTYPE_FLOAT32 then 4
  else 1.

(** [npu_create_tensor]: [n * c * h * w] is a [uint32_t] product, widened
    to [size_t] for the multiplication by the element size. *)
Definition npu_create_tensor (data : Z) (mem : list Z) (n c h w dtype : Z) : npu_tensor_t :=
  mk_tensor data mem (to_u64 (to_u32 (to_u32 (to_u32 (n * c) * h) * w) * element_size dtype))
    [n; c; h; w] dtype.

(** [npu_validate_tensor] (a zero dimension only logs a warning). *)
Definition npu_validate_tensor (t : npu_tensor_t) : Z :=
  if data t =? 0 then Lib.NPU_ERROR_INVALID
  else if size t =? 0 then Lib.NPU_ERROR_INVALID
  else if (dtype t <? NPU_DTYPE_INT8) || (dtype t >? NPU_DTYPE_FLOAT32) then Lib.NPU_ERROR_INVALID
  else Lib.NPU_SUCCESS.

(** [npu_reshape]: returns the status and the output tensor. *)
Definition npu_reshape (input output : npu_tensor_t) (new_shape : list Z) (num_dims : Z)
  : Z * npu_tensor_t :=
  if (num_dims <=? 0) || (num_dims >? 4) then (Lib.NPU_ERROR_INVALID, output)
  else
    let shape := firstn (Z.to_nat num_dims) new_shape in
    let new_total_size := fold_left (fun acc s => to_u64 (acc * s)) shape 1 in
    let old_total_size :=
      to_u32 (to_u32 (to_u32 (dim input 0 * dim input 1) * dim input 2) * dim input 3) in
    if negb (new_total_size =? old_total_size) then (Lib.NPU_ERROR_INVALID, output)
    else
      (* memset(output->dims, 1, sizeof(output->dims)) sets every byte to 1 *)
      let dims0 := repeat 0x01010101 4 in
      let dims' := fold_left (fun ds '(i, s) => set_nth i s ds)
                     (combine (seq 0 (Z.to_nat num_dims)) shape) dims0 in
      let mem' := if data input =? data output then mem output
                  else firstn (Z.to_nat (size input)) (mem input)
                       ++ skipn (Z.to_nat (size input)) (mem output) in
      (Lib.NPU_SUCCESS, mk_tensor (data output) mem' (size output) dims' (dtype output)).

(** The copy loop of [npu_concat]; [None] is a NULL entry of [inputs]. *)
Fixpoint concat_loop (inputs : list (option npu_tensor_t)) (total_offset : Z) (out : list Z)
  : Z * list Z :=
  match inputs with
  | [] => (Lib.NPU_SUCCESS, out)
  | None :: _ => (Lib.NPU_ERROR_INVALID, out)
  | Some t :: rest =>
      concat_loop rest (to_u64 (total_offset + size t))
        (Lib.splice out total_offset (firstn (Z.to_nat (size t)) (mem t)))
  end.

(** [npu_concat] (along axis 0, whatever [axis]). *)
Definition npu_concat (inputs : list (option npu_tensor_t)) (num_inputs : Z)
  (output : npu_tensor_t) : Z * npu_tensor_t :=
  if num_inputs <=? 0 then (Lib.NPU_ERROR_INVALID, output)
  else
    let '(r, m) := concat_loop (firstn (Z.to_nat num_inputs) inputs) 0 (mem output) in
    (r, mk_tensor (data output) m (size output) (dims output) (dtype output)).

End Tensor.


(** * Lemmas *)

Lemma to_u64_gtb_false x y : 0 <= x <= y -> (to_u64 x >? y) = false.
Proof.
  intros H. rewrite Z.gtb_ltb. apply Z.ltb_ge. unfold to_u64.
  pose proof (Z.mod_le x u64_mod ltac:(lia) ltac:(unfold u64_mod; lia)). lia.
Qed.

Lemma set_dma_buffers_same (d : fpga_npu_dev) : set_dma_buffers (dma_buffers d) d = d.
Proof. destruct d; reflexivity. Qed.

Lemma set_dma_buffers_twice l l' d :
  set_dma_buffers l (set_dma_buffers l' d) = set_dma_buffers l d.
Proof. destruct d; reflexivity. Qed.

Lemma set_next_buffer_id_twice n n' d :
  set_next_buffer_id n (set_next_buffer_id n' d) = set_next_buffer_id n d.
Proof. destruct d; reflexivity. Qed.

Lemma ref_update_cancel id l : ref_update (-1) id (ref_update 1 id l) = l.
Proof.
  induction l as [|b l IH]; simpl; [reflexivity|].
  destruct (buf_buffer_id b =? id) eqn:E; simpl.
  - unfold add_ref at 2; simpl. rewrite E. f_equal.
    destruct b; unfold add_ref; simpl; f_equal; lia.
  - rewrite E, IH. reflexivity.
Qed.

Lemma find_buf_app_absent l x id :
  (forall b, In b l -> buf_buffer_id b <> id) -> buf_buffer_id x = id ->
  find_buf (l ++ [x]) id = Some x.
Proof.
  intros Hl Hx. induction l as [|b l IH]; simpl.
  - rewrite Hx, Z.eqb_refl. reflexivity.
  - assert (buf_buffer_id b <> id) by (apply Hl; left; reflexivity).
    destruct (Z.eqb_spec (buf_buffer_id b) id); [contradiction|].
    apply IH. intros b' Hb'. apply Hl. right. exact Hb'.
Qed.

Lemma list_del_id_app_absent l x id :
  (forall b, In b l -> buf_buffer_id b <> id) -> buf_buffer_id x = id ->
  list_del_id (l ++ [x]) id = l.
Proof.
  intros Hl Hx. induction l as [|b l IH]; simpl.
  - rewrite Hx, Z.eqb_refl. reflexivity.
  - assert (buf_buffer_id b <> id) by (apply Hl; left; reflexivity).
    destruct (Z.eqb_spec (buf_buffer_id b) id); [contradiction|].
    rewrite IH; [reflexivity|]. intros b' Hb'. apply Hl. right. exact Hb'.
Qed.

Lemma find_buf_none_absent l id :
  find_buf l id = None <-> (forall b, In b l -> buf_buffer_id b <> id).
Proof.
  induction l as [|b l IH]; simpl.
  - split; [intros _ b []|reflexivity].
  - destruct (Z.eqb_spec (buf_buffer_id b) id).
    + split; [discriminate|]. intros H. exfalso. exact (H b (or_introl eq_refl) e).
    + rewrite IH. split.
      * intros H b' [<-|Hb']; [exact n|exact (H b' Hb')].
      * intros H b' Hb'. exact (H b' (or_intror Hb')).
Qed.

(** An allocate-then-free round only advances the id counter, provided no
    registered buffer already carries the id it hands out. *)
Lemma alloc_free_round_eq mem d :
  (forall b, In b (dma_buffers d) -> buf_buffer_id b <> next_buffer_id d) ->
  alloc_free_round mem d = set_next_buffer_id (to_u32 (next_buffer_id d + 1)) d.
Proof.
  intros H. destruct mem as [cpu h]. unfold alloc_free_round, npu_alloc_dma_buffer.
  replace ((4096 <? NPU_MIN_BUFFER_SIZE) || (4096 >? NPU_MAX_BUFFER_SIZE)) with false
    by reflexivity.
  unfold npu_free_dma_buffer. cbn [dma_buffers set_dma_buffers set_next_buffer_id].
  rewrite find_buf_app_absent by (simpl; auto).
  cbn [dma_buffers set_dma_buffers].
  rewrite list_del_id_app_absent by (simpl; auto).
  destruct d; reflexivity.
Qed.

Lemma alloc_free_rounds_eq n mem d :
  0 <= next_buffer_id d < u32_mod ->
  (forall k b, (k < n)%nat -> In b (dma_buffers d) ->
     buf_buffer_id b <> to_u32 (next_buffer_id d + Z.of_nat k)) ->
  alloc_free_rounds n mem d = set_next_buffer_id (to_u32 (next_buffer_id d + Z.of_nat n)) d.
Proof.
  revert d. induction n as [|n IH]; intros d Hr H; simpl.
  - unfold to_u32. rewrite Z.add_0_r, Z.mod_small by exact Hr. destruct d; reflexivity.
  - rewrite alloc_free_round_eq.
    2:{ intros b Hb. specialize (H 0%nat b ltac:(lia) Hb).
        unfold to_u32 in H. rewrite Z.add_0_r, Z.mod_small in H by exact Hr. exact H. }
    rewrite IH.
    + rewrite set_next_buffer_id_twice. f_equal. destruct d; simpl.
      unfold to_u32. rewrite Zplus_mod_idemp_l. f_equal. lia.
    + destruct d; simpl. unfold to_u32. apply Z.mod_pos_bound. reflexivity.
    + intros k b Hk Hb. destruct d; simpl in *.
      specialize (H (S k) b ltac:(lia) Hb).
      unfold to_u32 in *. rewrite Zplus_mod_idemp_l.
      replace (next_buffer_id0 + 1 + Z.of_nat k) with (next_buffer_id0 + Z.of_nat (S k)) by lia.
      exact H.
Qed.

Ltac inv_some := let H := fresh "H" in intros H; inversion H; subst; clear H.
Ltac no_some := let H := fresh "H" in intros H; discriminate H.

Lemma npu_wait_irq_buffers env t d r d' :
  npu_wait_irq env t d = Some (r, d') -> dma_buffers d' = dma_buffers d.
Proof.
  unfold npu_wait_irq, wait_event_interruptible, wait_event_interruptible_timeout,
    fpga_npu_interrupt.
  destruct d as [l n o ir m h sz po tc pw ts lg]; cbn.
  destruct (t =? 0); destruct ir; cbn;
    [inv_some; reflexivity| |inv_some; reflexivity|].
  - destruct (first_event env None) as [[st|]|]; [|inv_some; reflexivity|no_some].
    destruct (Z.land st 8 =? 0); cbn; [no_some|inv_some; reflexivity].
  - destruct (first_event env (Some t)) as [[st|]|]; cbn;
      [|inv_some; reflexivity|inv_some; reflexivity].
    destruct (Z.land st 8 =? 0); cbn; inv_some; reflexivity.
Qed.

Lemma npu_dma_transfer_buffers env t d r d' :
  npu_dma_transfer env t d = Some (r, d') -> dma_buffers d' = dma_buffers d.
Proof.
  unfold npu_dma_transfer.
  destruct (find_buf (dma_buffers d) (xfer_buffer_id t)) as [b|];
    [|intros [= <- <-]; reflexivity].
  destruct (_ >? buf_size b).
  - intros [= <- <-]. cbn [set_dma_buffers dma_buffers]. apply ref_update_cancel.
  - destruct (negb _).
    + destruct (npu_wait_irq _ _ _) as [[r6 d6]|] eqn:W; [|discriminate].
      intros [= <- <-]. apply npu_wait_irq_buffers in W. cbn [set_dma_buffers dma_buffers].
      rewrite W. destruct d; apply ref_update_cancel.
    + intros [= <- <-]. destruct d; apply ref_update_cancel.
Qed.

Lemma npu_execute_instruction_buffers inst d :
  dma_buffers (snd (npu_execute_instruction inst d)) = dma_buffers d.
Proof.
  unfold npu_execute_instruction. simpl.
  destruct (Z.land (inst_flags inst) NPU_INST_FLAG_PROFILE =? 0); destruct d; reflexivity.
Qed.

Lemma npu_execute_instruction_log inst d :
  map fst (mmio_log (snd (npu_execute_instruction inst d))) =
  map fst (mmio_log d) ++ [REG_DATA_ADDR; REG_DATA_SIZE; REG_CONTROL].
Proof.
  unfold npu_execute_instruction. simpl.
  destruct (Z.land (inst_flags inst) NPU_INST_FLAG_PROFILE =? 0); destruct d; simpl;
    rewrite <- !app_assoc, !map_app; reflexivity.
Qed.

Lemma lor_shiftl_32 x y :
  0 <= y < 2 ^ 32 -> Z.lor (Z.shiftl x 32) y = x * 2 ^ 32 + y.
Proof.
  intros Hy.
  assert (Hl : Z.land (Z.shiftl x 32) y = 0).
  { apply Z.bits_inj'. intros n Hn. rewrite Z.land_spec, Z.bits_0.
    destruct (Z.lt_ge_cases n 32).
    - rewrite Z.shiftl_spec_low by lia. reflexivity.
    - rewrite <- (Z.mod_small y (2 ^ 32)) by lia.
      rewrite Z.mod_pow2_bits_high by lia. apply andb_false_r. }
  rewrite <- Z.lxor_lor by exact Hl.
  rewrite <- Z.add_nocarry_lxor by exact Hl.
  rewrite Z.shiftl_mul_pow2 by lia. reflexivity.
Qed.

(** * Claims *)

(** ** C1: bounds validation before register writes *)

(** C1 (counterexample): an instruction is submitted without any bounds check.
    Against a device whose only buffer is 4 KiB, an instruction of size
    64 KiB is accepted (return 0) and three registers are written. *)
Lemma C1_unchecked_instruction :
  let d := set_dma_buffers [mk_buf 0 4096 4096 1 1 1] (probe_dev 4096) in
  let inst := mk_inst 6 0 0 0 65536 [] 0 in
  fst (npu_execute_instruction inst d) = 0 /\
  map fst (mmio_log (snd (npu_execute_instruction inst d))) =
    [REG_DATA_ADDR; REG_DATA_SIZE; REG_CONTROL].
Proof. split; reflexivity. Qed.

(** C1 (amended): [npu_execute_instruction] never validates: it returns 0
    after writing DATA_ADDR, DATA_SIZE and CONTROL, whatever the
    instruction's sizes.  Bounds are validated on the DMA-transfer path
    only: a transfer on a registered buffer whose offset + size (both
    64-bit, their sum not overflowing) exceeds the buffer's size returns
    [-EINVAL] with the device state unchanged (no register write, reference
    count back to its value), and a transfer on an unknown id returns
    [-ENOENT] likewise. *)
Theorem C1_amended_validation :
  forall env t d inst,
  (fst (npu_execute_instruction inst d) = 0 /\
   map fst (mmio_log (snd (npu_execute_instruction inst d))) =
     map fst (mmio_log d) ++ [REG_DATA_ADDR; REG_DATA_SIZE; REG_CONTROL]) /\
  (find_buf (dma_buffers d) (xfer_buffer_id t) = None ->
     npu_dma_transfer env t d = Some (- ENOENT, d)) /\
  (forall b, find_buf (dma_buffers d) (xfer_buffer_id t) = Some b ->
     0 <= xfer_offset t -> 0 <= xfer_size t -> xfer_offset t + xfer_size t < u64_mod ->
     xfer_offset t + xfer_size t > buf_size b ->
     npu_dma_transfer env t d = Some (- EINVAL, d)).
Proof.
  intros env t d inst. split; [split|split].
  - unfold npu_execute_instruction. simpl.
    destruct (Z.land (inst_flags inst) NPU_INST_FLAG_PROFILE =? 0); reflexivity.
  - apply npu_execute_instruction_log.
  - intros H. unfold npu_dma_transfer. rewrite H. reflexivity.
  - intros b H Ho Hs Hu Hgt.
    assert (Hgt' : to_u64 (xfer_offset t + xfer_size t) > buf_size b)
      by (unfold to_u64; rewrite Z.mod_small by lia; exact Hgt).
    unfold npu_dma_transfer. rewrite H.
    rewrite (proj2 (Z.gtb_lt _ _) (Z.gt_lt _ _ Hgt')).
    cbn [set_dma_buffers dma_buffers]. rewrite ref_update_cancel.
    rewrite set_dma_buffers_twice, set_dma_buffers_same. reflexivity.
Qed.

Lemma C1_amended_validation_witness :
  let d := set_dma_buffers [mk_buf 0 4096 4096 1 1 1] (probe_dev 4096) in
  let t := mk_xfer 1 4000 200 0 0 0 0 in
  find_buf (dma_buffers d) 1 = Some (mk_buf 0 4096 4096 1 1 1) /\
  npu_dma_transfer (mk_env None None) t d = Some (- EINVAL, d).
Proof.
  intros d t. split; [reflexivity|].
  apply (proj2 (proj2 (C1_amended_validation (mk_env None None) t d (mk_inst 0 0 0 0 0 [] 0)))
           (mk_buf 0 4096 4096 1 1 1)); vm_compute; (reflexivity || discriminate).
Defined.

(** ** C2: references held by in-flight work *)

(** C2 (counterexample): a non-blocking DMA transfer on buffer 1 (reference
    count 1) starts the engine (DMA_CTRL written) and returns 0 with the
    count back at 1 and no completion observed; a [free] issued right after
    releases the backing memory while the transfer is still in flight. *)
Lemma C2_free_releases_in_flight :
  let d := set_dma_buffers [mk_buf 0 4096 4096 1 1 1] (probe_dev 4096) in
  let t := mk_xfer 1 0 4096 0 0 0 0 in
  match npu_dma_transfer (mk_env None None) t d with
  | Some (r, d1) =>
      r = 0 /\ In (REG_DMA_CTRL, 0) (mmio_log d1) /\
      interrupt_received d1 = false /\
      map buf_ref_count (dma_buffers d1) = [1] /\
      npu_free_dma_buffer 1 d1 = (0, true, set_dma_buffers [] d1)
  | None => False
  end.
Proof. vm_compute. repeat split; auto 10. Qed.

(** C2 (amended): no submission path keeps a reference once it returns.
    [npu_execute_instruction] leaves every reference count as it was;
    [npu_dma_transfer] takes a reference on entry and drops it before it
    returns, on every path (rejection, non-blocking start, completed,
    timed-out or interrupted wait), so the registry is unchanged; and
    [npu_free_dma_buffer] releases the memory exactly when the count it
    drops was 1. *)
Theorem C2_amended_refcounts :
  (forall inst d, dma_buffers (snd (npu_execute_instruction inst d)) = dma_buffers d) /\
  (forall env t d r d', npu_dma_transfer env t d = Some (r, d') ->
     dma_buffers d' = dma_buffers d) /\
  (forall id d b, find_buf (dma_buffers d) id = Some b ->
     npu_free_dma_buffer id d =
       (0, buf_ref_count b =? 1, set_dma_buffers (list_del_id (dma_buffers d) id) d)).
Proof.
  split; [|split].
  - apply npu_execute_instruction_buffers.
  - apply npu_dma_transfer_buffers.
  - intros id d b H. unfold npu_free_dma_buffer. rewrite H. do 2 f_equal.
    destruct (Z.eqb_spec (buf_ref_count b - 1) 0); destruct (Z.eqb_spec (buf_ref_count b) 1);
      reflexivity || lia.
Qed.

Lemma C2_amended_refcounts_witness :
  let d := set_dma_buffers [mk_buf 0 4096 4096 1 1 2] (probe_dev 4096) in
  find_buf (dma_buffers d) 1 = Some (mk_buf 0 4096 4096 1 1 2) /\
  npu_free_dma_buffer 1 d = (0, false, set_dma_buffers [] d).
Proof.
  intros d. split; [reflexivity|].
  exact (proj2 (proj2 C2_amended_refcounts) 1 d (mk_buf 0 4096 4096 1 1 2) eq_refl).
Defined.

(** ** C3: [npu_matrix_multiply] *)

(** C3 (counterexample): A is 2x3 and B is 2x2 (A's inner dimension 3,
    B's outer dimension 2); the library still submits the MATMUL
    instruction: the driver receives it through [write] and starts the NPU. *)
Lemma C3_mismatched_dims_submitted :
  let a := Lib.mk_tensor [1; 2; 3; 4; 5; 6] 6 [1; 1; 2; 3] in
  let b := Lib.mk_tensor [1; 2; 3; 4] 4 [1; 1; 2; 2] in
  let c := Lib.mk_tensor [0; 0; 0; 0] 4 [1; 1; 2; 2] in
  let s := mk_sys (probe_dev 4096) (mk_env (Some (1, STATUS_DONE)) None) in
  Lib.dim a 3 <> Lib.dim b 2 /\
  match Lib.npu_matrix_multiply a b c (Lib.mk_ctx (repeat 0 64) 64 0, s) with
  | Done (_, (_, s')) =>
      mmio_log (sdev s') = [(REG_DATA_ADDR, 4096); (REG_DATA_SIZE, 36); (REG_CONTROL, 5)]
  | _ => False
  end.
Proof. split; [discriminate|]. vm_compute. reflexivity. Qed.

(** C3 (amended): there is no dimension check.  Whenever A, B and C fit in
    the shared buffer, the call copies them at offsets 0, |A| and |A|+|B|,
    submits one MATMUL instruction with M = A.dims[2], K = A.dims[3],
    N = B.dims[3] (fourth parameter 0) and size |C|, then calls
    [npu_wait_completion(handle, 0)] and, only if that reports success,
    copies C back from offset |A|+|B|; whatever the kernel is. *)
Theorem C3_amended_matmul :
  forall (K : Type) (HK : Kernel K) (ctx : Lib.npu_context) (k : K) a b c,
  0 <= Lib.tsize a -> 0 <= Lib.tsize b -> 0 <= Lib.tsize c ->
  Lib.tsize a + Lib.tsize b + Lib.tsize c <= Lib.buffer_size ctx ->
  Lib.buffer_size ctx < u32_mod ->
  let sa := Lib.tsize a in
  let sb := Lib.tsize b in
  let sc := Lib.tsize c in
  let buf' := Lib.splice (Lib.splice (Lib.splice (Lib.buffer ctx) 0
                 (firstn (Z.to_nat sa) (Lib.tdata a)))
                 sa (firstn (Z.to_nat sb) (Lib.tdata b)))
                 (sa + sb) (firstn (Z.to_nat sc) (Lib.tdata c)) in
  let inst := Lib.mk_uinst Lib.NPU_OP_MATMUL 0 sa (sa + sb) (to_u32 sc)
                [Lib.dim a 2; Lib.dim a 3; Lib.dim b 3; 0] in
  Lib.npu_matrix_multiply a b c (ctx, k) =
  Lib.bind (Lib.npu_execute_instruction inst) (fun r =>
    if negb (r =? Lib.NPU_SUCCESS) then Lib.ret (r, c) else
    Lib.bind (Lib.npu_wait_completion 0) (fun w =>
      if negb (w =? Lib.NPU_SUCCESS) then Lib.ret (w, c) else
      Lib.copy_tensor_from_buffer c (sa + sb)))
    (Lib.mk_ctx buf' (Lib.buffer_size ctx) (sa + sb + sc), k).
Proof.
  intros K HK [buf size off] k a b c Ha Hb Hc Hfit Hsz sa sb sc buf' inst.
  cbn in Hfit, Hsz. subst sa sb sc buf' inst.
  repeat (progress (cbv beta iota zeta delta [Lib.npu_matrix_multiply
      Lib.copy_tensor_to_buffer Lib.bind Lib.get_ctx Lib.put_ctx Lib.ret fst snd
      Lib.buffer Lib.buffer_size Lib.buffer_offset Lib.NPU_SUCCESS Z.eqb negb])
    || match goal with
       | |- context [to_u64 ?x >? ?y] => rewrite (to_u64_gtb_false x y) by lia
       | |- context [?x >? ?y] =>
           replace (x >? y) with false by (symmetry; rewrite Z.gtb_ltb; apply Z.ltb_ge; lia)
       | |- context [to_u32 ?x] =>
           replace (to_u32 x) with x by (symmetry; apply Z.mod_small; unfold u32_mod; lia)
       end).
  rewrite Z.add_0_l. reflexivity.
Qed.

Lemma C3_amended_matmul_witness :
  let a := Lib.mk_tensor [1; 2; 3; 4; 5; 6] 6 [1; 1; 2; 3] in
  let b := Lib.mk_tensor [1; 2; 3; 4; 5; 6] 6 [1; 1; 3; 2] in
  let c := Lib.mk_tensor [0; 0; 0; 0] 4 [1; 1; 2; 2] in
  exists r, Lib.npu_matrix_multiply a b c (Lib.mk_ctx (repeat 0 64) 64 0, false) = r.
Proof.
  intros a b c. eexists.
  apply (C3_amended_matmul bool mock_kernel (Lib.mk_ctx (repeat 0 64) 64 0) false a b c);
    vm_compute; congruence.
Defined.

(** ** C4: [wait(timeout_ms)] *)

(** C4 (code bug): [npu_wait_completion] issues [ioctl(fd, 1, 0)] instead of
    [NPU_IOCTL_WAIT_COMPLETION]; the driver refuses command 1 ([_IOC_TYPE]
    is 0, not 'N') with [-ENOTTY] before looking at the completion flag, so
    against the driver the call returns [NPU_ERROR_DEVICE] at once, for any
    timeout, even when the completion interrupt has already set the flag. *)
Theorem C4_wait_refused_by_driver :
  forall (ctx : Lib.npu_context) (s : npu_system) (timeout_ms : Z),
  Lib.npu_wait_completion timeout_ms (ctx, s) = Done (Lib.NPU_ERROR_DEVICE, (ctx, s)).
Proof. intros ctx [d env] t. reflexivity. Qed.

(** Supporting facts: the unit test's mock accepts the same call (so the
    test expecting [NPU_SUCCESS] passes), and the driver's own
    [NPU_IOCTL_WAIT_COMPLETION] command does what the library documents. *)
Example wait_completion_mock_success :
  Lib.npu_wait_completion (K := bool) 1000 (Lib.mk_ctx [] 0 0, false) =
  Done (Lib.NPU_SUCCESS, (Lib.mk_ctx [] 0 0, false)).
Proof. reflexivity. Qed.

Example driver_wait_ioctl_done :
  let d := set_interrupt_received true (probe_dev 4096) in
  fpga_npu_ioctl (mk_env None None) NPU_IOCTL_WAIT_COMPLETION (ArgU32 0) d =
  Done (0, set_interrupt_received false d).
Proof. reflexivity. Qed.

Example driver_wait_ioctl_timeout :
  let d := probe_dev 4096 in
  fpga_npu_ioctl (mk_env (Some (50, STATUS_DONE)) None) NPU_IOCTL_WAIT_COMPLETION (ArgU32 10) d =
  Done (- ETIMEDOUT, set_interrupt_received false d).
Proof. reflexivity. Qed.

(** ** C5: thermal classification *)

(** C5 (counterexample): at exactly 75 degrees the state is Normal (0),
    not Warning (1). *)
Lemma C5_75_is_normal :
  thermal_state (fst (npu_thermal_monitor 75 20000 0 (probe_dev 4096))) = 0.
Proof. reflexivity. Qed.

(** C5 (amended): each run re-arms the timer 5000 ms later and classifies
    the temperature read as Normal (0) up to 75 inclusive, Warning (1) for
    76..85 and Critical (2) above 85; temperature and power are stored. *)
Theorem C5_amended_thermal :
  forall temp power now d,
  let '(d', expiry) := npu_thermal_monitor temp power now d in
  expiry = now + 5000 /\
  temperature_celsius d' = temp /\ power_consumption_mw d' = power /\
  (thermal_state d' = 0 <-> temp <= 75) /\
  (thermal_state d' = 1 <-> 75 < temp <= 85) /\
  (thermal_state d' = 2 <-> 85 < temp).
Proof.
  intros temp power now d. unfold npu_thermal_monitor. cbn.
  destruct (Z.gtb_spec temp 85); destruct (Z.gtb_spec temp 75);
    repeat split; intros; lia.
Qed.

(** ** C6: 64-bit cycle counter *)

(** C6 (counterexample): each half is read once and never re-read, so with
    the counter rolling over between the two reads the snapshot holds a
    value the counter never had, whichever order the compiler evaluates the
    two reads in (0 or 0x1FFFFFFFF instead of 0xFFFFFFFF or 0x100000000). *)
Lemma C6_torn_cycle_read :
  let '(s1, tr1) := npu_get_performance_counters true rolling_counter in
  let '(s2, tr2) := npu_get_performance_counters false rolling_counter in
  snap_cycles s1 = 0 /\ snap_cycles s2 = 2 ^ 33 - 1 /\
  tr1 = [PerfLock; PerfRead (REG_PERF_CYCLES + 4); PerfRead REG_PERF_CYCLES;
         PerfRead REG_TEMPERATURE; PerfRead REG_POWER; PerfUnlock] /\
  tr2 = [PerfLock; PerfRead REG_PERF_CYCLES; PerfRead (REG_PERF_CYCLES + 4);
         PerfRead REG_TEMPERATURE; PerfRead REG_POWER; PerfUnlock].
Proof. vm_compute. repeat split. Qed.

(** C6 (amended): under the perf lock, the cycle counter is composed from a
    single read of each 32-bit half (high at PERF_CYCLES+4, low at
    PERF_CYCLES, in an order C leaves unspecified) as high * 2^32 + low, with
    no second read of the high word and no retry; temperature and power are
    read next, then the lock is released. *)
Theorem C6_amended_single_read :
  forall hi_first hw,
  let '(snap, tr) := npu_get_performance_counters hi_first hw in
  let t_hi := if hi_first then 0%nat else 1%nat in
  let t_lo := if hi_first then 1%nat else 0%nat in
  snap_cycles snap = to_u32 (hw t_hi (REG_PERF_CYCLES + 4)) * 2 ^ 32
                     + to_u32 (hw t_lo REG_PERF_CYCLES) /\
  tr = [PerfLock] ++
       (if hi_first then [PerfRead (REG_PERF_CYCLES + 4); PerfRead REG_PERF_CYCLES]
        else [PerfRead REG_PERF_CYCLES; PerfRead (REG_PERF_CYCLES + 4)]) ++
       [PerfRead REG_TEMPERATURE; PerfRead REG_POWER; PerfUnlock].
Proof.
  intros hi_first hw.
  assert (Hc : forall h l, to_u64 (Z.lor (Z.shiftl (to_u32 h) 32) (to_u32 l)) =
                           to_u32 h * 2 ^ 32 + to_u32 l).
  { intros h l. unfold to_u64, to_u32, u32_mod, u64_mod.
    pose proof (Z.mod_pos_bound h (2 ^ 32) ltac:(lia)).
    pose proof (Z.mod_pos_bound l (2 ^ 32) ltac:(lia)).
    rewrite lor_shiftl_32 by lia. apply Z.mod_small. nia. }
  destruct hi_first; cbn -[to_u64 to_u32 Z.pow]; split; (apply Hc || reflexivity).
Qed.

(** ** C7: [npu_alloc_dma_buffer] *)

(** C7 (counterexample): ids come from a 32-bit counter.  After probe, a
    first allocation gets id 1 and is kept; after 2^32 - 2 allocate-then-free
    rounds (each succeeding) the next allocation gets id 0, which is not
    greater than the earlier id 1. *)
Lemma C7_id_counter_wraps :
  let mem := (0, 0) in
  match npu_alloc_dma_buffer (Some mem) 4096 0 (probe_dev 4096) with
  | (r1, d1, Some id1) =>
      match npu_alloc_dma_buffer (Some mem) 4096 0
              (alloc_free_rounds (Z.to_nat (2 ^ 32 - 2)) mem d1) with
      | (r2, _, Some id2) => r1 = 0 /\ r2 = 0 /\ id1 = 1 /\ id2 = 0
      | _ => False
      end
  | _ => False
  end.
Proof.
  intros mem.
  set (D1 := set_dma_buffers [mk_buf 0 0 4096 0 1 1] (set_next_buffer_id 2 (probe_dev 4096))).
  assert (H1 : npu_alloc_dma_buffer (Some mem) 4096 0 (probe_dev 4096) = (0, D1, Some 1))
    by reflexivity.
  rewrite H1. rewrite alloc_free_rounds_eq.
  - rewrite Z2Nat.id by lia. vm_compute. repeat split.
  - vm_compute. split; congruence.
  - intros k b Hk Hb. simpl in Hb. destruct Hb as [<-|[]].
    change (next_buffer_id D1) with 2. change (buf_buffer_id (mk_buf 0 0 4096 0 1 1)) with 1.
    apply Nat2Z.inj_lt in Hk. rewrite Z2Nat.id in Hk by lia.
    unfold to_u32, u32_mod. rewrite Z.mod_small by lia. lia.
Qed.

(** C7 (amended): a size outside [4 KiB, 16 MiB] fails [-EINVAL] with the
    device unchanged.  On success the new buffer (reference count 1, the
    requested size) is appended to the registry with id [next_buffer_id],
    and the 32-bit counter advances to [(id + 1) mod 2^32]; [free] never
    touches the counter.  Ids therefore increase strictly until the counter
    wraps from 0xFFFFFFFF to 0. *)
Theorem C7_amended_alloc :
  forall mem size flags d,
  ((size < NPU_MIN_BUFFER_SIZE \/ size > NPU_MAX_BUFFER_SIZE) ->
     npu_alloc_dma_buffer mem size flags d = (- EINVAL, d, None)) /\
  (forall r d' id, npu_alloc_dma_buffer mem size flags d = (r, d', Some id) ->
     r = 0 /\ id = next_buffer_id d /\ next_buffer_id d' = to_u32 (id + 1) /\
     exists b, dma_buffers d' = dma_buffers d ++ [b] /\ buf_buffer_id b = id /\
       buf_ref_count b = 1 /\ buf_size b = size) /\
  (forall id, next_buffer_id (snd (npu_free_dma_buffer id d)) = next_buffer_id d).
Proof.
  intros mem size flags d. split; [|split].
  - intros H. unfold npu_alloc_dma_buffer.
    replace ((size <? NPU_MIN_BUFFER_SIZE) || (size >? NPU_MAX_BUFFER_SIZE)) with true
      by (symmetry; apply orb_true_iff; destruct H as [H|H];
          [left; apply Z.ltb_lt | right; apply Z.gtb_lt]; lia).
    reflexivity.
  - intros r d' id. unfold npu_alloc_dma_buffer.
    destruct ((size <? NPU_MIN_BUFFER_SIZE) || (size >? NPU_MAX_BUFFER_SIZE));
      [intros H; inversion H|].
    destruct mem as [[cpu h]|]; [|intros H; inversion H].
    intros H; inversion H; subst; clear H.
    split; [reflexivity|]. split; [reflexivity|]. split; [destruct d; reflexivity|].
    eexists. split; [destruct d; reflexivity|]. repeat split.
  - intros id. unfold npu_free_dma_buffer.
    destruct (find_buf (dma_buffers d) id); destruct d; reflexivity.
Qed.

Lemma C7_amended_alloc_witness :
  npu_alloc_dma_buffer (Some (0, 0)) 0 0 (probe_dev 4096) = (- EINVAL, probe_dev 4096, None) /\
  (npu_alloc_dma_buffer (Some (0, 0)) 4096 0 (probe_dev 4096) =
     (0, set_dma_buffers [mk_buf 0 0 4096 0 1 1] (set_next_buffer_id 2 (probe_dev 4096)), Some 1) /\
   next_buffer_id (probe_dev 4096) = 1).
Proof.
  split.
  - apply (proj1 (C7_amended_alloc (Some (0, 0)) 0 0 (probe_dev 4096))). left. vm_compute. reflexivity.
  - split; [reflexivity|].
    exact (proj1 (proj2 (proj1 (proj2 (C7_amended_alloc (Some (0, 0)) 4096 0 (probe_dev 4096)))
             0 _ 1 eq_refl))).
Defined.

(** ** C8: single session *)

(** C8 (counterexample): while a session is open, an [open] interrupted by a
    signal while it waits for [dev_mutex] returns [-ERESTARTSYS], not
    [-EBUSY]. *)
Lemma C8_open_interrupted :
  let d := set_device_open true (probe_dev 4096) in
  fpga_npu_open false d = (- ERESTARTSYS, d) /\ - ERESTARTSYS <> - EBUSY.
Proof. split; [reflexivity|discriminate]. Qed.

Lemma run_opens_while_open oks d :
  device_open d = true ->
  run_sessions (map Open oks) d =
  (map (fun ok : bool => if ok then - EBUSY else - ERESTARTSYS) oks, d).
Proof.
  revert d. induction oks as [|ok oks IH]; intros d Hd; [reflexivity|].
  cbn [map run_sessions]. unfold fpga_npu_open. rewrite Hd.
  destruct ok; cbn; rewrite IH by exact Hd; reflexivity.
Qed.

Lemma count_refused (l : list bool) :
  count_occ Z.eq_dec (map (fun ok : bool => if ok then - EBUSY else - ERESTARTSYS) l) 0 = 0%nat /\
  count_occ Z.eq_dec (map (fun ok : bool => if ok then - EBUSY else - ERESTARTSYS) l) (- EBUSY)
    = count_occ bool_dec l true.
Proof.
  induction l as [|x l [IH1 IH2]]; [split; reflexivity|].
  cbn [map]. destruct x.
  - rewrite count_occ_cons_neq by discriminate.
    rewrite count_occ_cons_eq by reflexivity.
    rewrite (count_occ_cons_eq bool_dec) by reflexivity. split; congruence.
  - rewrite count_occ_cons_neq by discriminate.
    rewrite count_occ_cons_neq by discriminate.
    rewrite (count_occ_cons_neq bool_dec) by discriminate. split; congruence.
Qed.

Lemma run_opens_interrupted oks d :
  existsb (fun b => b) oks = false ->
  run_sessions (map Open oks) d = (repeat (- ERESTARTSYS) (length oks), d).
Proof.
  revert d. induction oks as [|ok oks IH]; intros d H; [reflexivity|].
  destruct ok; [discriminate|]. cbn [map run_sessions fpga_npu_open negb].
  rewrite IH by exact H. reflexivity.
Qed.

(** C8 (amended): an [open] interrupted by a signal while it waits for
    [dev_mutex] fails [-ERESTARTSYS], whether or not a session is open; an
    [open] that acquires the mutex while a session is open fails [-EBUSY];
    both leave the device unchanged.  After [close], an [open] that acquires
    the mutex succeeds.  Of N concurrent opens on a closed device, taken in
    the order the mutex serialises them: each interrupted one gets
    [-ERESTARTSYS], the first that acquires the mutex gets 0 and opens the
    device, and every later one that acquires it gets [-EBUSY]; when none
    acquires it, none succeeds and the device stays closed.  So exactly one
    succeeds when at least one acquires the mutex. *)
Theorem C8_amended_sessions :
  (forall d, fpga_npu_open false d = (- ERESTARTSYS, d)) /\
  (forall d, device_open d = true -> fpga_npu_open true d = (- EBUSY, d)) /\
  (forall d, fst (fpga_npu_open true (snd (fpga_npu_release d))) = 0) /\
  (forall pre post d, device_open d = false -> existsb (fun b => b) pre = false ->
     run_sessions (map Open (pre ++ true :: post)) d =
     (repeat (- ERESTARTSYS) (length pre) ++
        0 :: map (fun ok : bool => if ok then - EBUSY else - ERESTARTSYS) post,
      set_device_open true d)) /\
  (forall oks d, device_open d = false -> existsb (fun b => b) oks = false ->
     run_sessions (map Open oks) d = (repeat (- ERESTARTSYS) (length oks), d)) /\
  (forall oks d, device_open d = false ->
     let rs := fst (run_sessions (map Open oks) d) in
     count_occ Z.eq_dec rs 0 = (if existsb (fun b => b) oks then 1 else 0)%nat /\
     count_occ Z.eq_dec rs (- EBUSY) =
       (count_occ bool_dec oks true - (if existsb (fun b => b) oks then 1 else 0))%nat).
Proof.
  split; [|split; [|split; [|split; [|split]]]].
  - intros d. reflexivity.
  - intros d Hd. unfold fpga_npu_open. rewrite Hd. reflexivity.
  - intros d. reflexivity.
  - intros pre post d Hd. induction pre as [|ok pre IH]; intros Hpre.
    + cbn [map app run_sessions]. unfold fpga_npu_open at 1. rewrite Hd. cbn [negb].
      rewrite run_opens_while_open by (destruct d; reflexivity). reflexivity.
    + destruct ok; [discriminate|]. cbn [map app run_sessions fpga_npu_open negb].
      rewrite (IH Hpre). reflexivity.
  - intros oks d _. apply run_opens_interrupted.
  - intros oks d. revert d. induction oks as [|ok oks IH]; intros d Hd; [split; reflexivity|].
    cbn [map run_sessions]. unfold fpga_npu_open. rewrite Hd. destruct ok; cbn.
    + rewrite run_opens_while_open by reflexivity. cbn.
      destruct (count_refused oks) as [H1 H2]. cbn in H1, H2.
      rewrite H1, H2. split; [reflexivity|]. lia.
    + destruct (run_sessions (map Open oks) d) as [rs d'] eqn:E.
      specialize (IH d Hd). rewrite E in IH. cbn in IH |- *. exact IH.
Qed.

Lemma C8_amended_sessions_witness :
  fpga_npu_open true (set_device_open true (probe_dev 4096)) =
    (- EBUSY, set_device_open true (probe_dev 4096)) /\
  run_sessions (map Open ([false] ++ true :: [true; false])) (probe_dev 4096) =
    ([- ERESTARTSYS; 0; - EBUSY; - ERESTARTSYS], set_device_open true (probe_dev 4096)) /\
  run_sessions (map Open [false; false]) (probe_dev 4096) =
    ([- ERESTARTSYS; - ERESTARTSYS], probe_dev 4096) /\
  count_occ Z.eq_dec (fst (run_sessions (map Open [false; true; true; true]) (probe_dev 4096))) 0 = 1%nat.
Proof.
  split; [|split; [|split]].
  - exact (proj1 (proj2 C8_amended_sessions) (set_device_open true (probe_dev 4096)) eq_refl).
  - exact (proj1 (proj2 (proj2 (proj2 C8_amended_sessions))) [false] [true; false] (probe_dev 4096)
             eq_refl eq_refl).
  - exact (proj1 (proj2 (proj2 (proj2 (proj2 C8_amended_sessions)))) [false; false] (probe_dev 4096)
             eq_refl eq_refl).
  - exact (proj1 (proj2 (proj2 (proj2 (proj2 (proj2 C8_amended_sessions)))) [false; true; true; true]
             (probe_dev 4096) eq_refl)).
Defined.

(** ** C9: DMA bounds check in 64-bit arithmetic *)

Lemma npu_wait_irq_log env t d r d' :
  npu_wait_irq env t d = Some (r, d') -> exists rest, mmio_log d' = mmio_log d ++ rest.
Proof.
  unfold npu_wait_irq, wait_event_interruptible, wait_event_interruptible_timeout,
    fpga_npu_interrupt.
  destruct d as [l n o ir m h sz po tc pw ts lg]; cbn.
  destruct (t =? 0); destruct ir; cbn;
    repeat match goal with
    | |- context [first_event ?e ?x] => destruct (first_event e x) as [[?st|]|]; cbn
    | |- context [Z.land ?st 8 =? 0] => destruct (Z.land st 8 =? 0); cbn
    end;
    first [no_some
          | inv_some; unfold set_interrupt_received, iowrite32; simpl;
            first [exists []; symmetry; apply app_nil_r | eexists; reflexivity]].
Qed.

Lemma mmio_log_set_dma_buffers l d : mmio_log (set_dma_buffers l d) = mmio_log d.
Proof. destruct d; reflexivity. Qed.

Lemma mmio_log_iowrite32 v reg d : mmio_log (iowrite32 v reg d) = mmio_log d ++ [(reg, to_u32 v)].
Proof. reflexivity. Qed.

(** C9: for a registered buffer [b], a transfer whose [offset + size],
    taken modulo 2^64, exceeds [b]'s size fails [-EINVAL] with the device
    unchanged; one whose wrapped sum is at most [b]'s size is accepted: the
    DMA source, destination, size and control registers are programmed, in
    that order, before anything else is written.  For any buffer size below
    2^63, offset = size = 2^63 (each larger than the buffer) wraps to 0 and
    is accepted. *)
Theorem C9_wrapped_bounds_check :
  forall env t d b,
  find_buf (dma_buffers d) (xfer_buffer_id t) = Some b ->
  (to_u64 (xfer_offset t + xfer_size t) > buf_size b ->
     npu_dma_transfer env t d = Some (- EINVAL, d)) /\
  (to_u64 (xfer_offset t + xfer_size t) <= buf_size b ->
     forall r d', npu_dma_transfer env t d = Some (r, d') ->
     exists rest, map fst (mmio_log d') =
       map fst (mmio_log d) ++ [REG_DMA_SRC; REG_DMA_DST; REG_DMA_SIZE; REG_DMA_CTRL] ++ rest) /\
  (0 <= buf_size b < 2 ^ 63 ->
     2 ^ 63 > buf_size b /\ to_u64 (2 ^ 63 + 2 ^ 63) <= buf_size b).
Proof.
  intros env t d b H. split; [|split].
  - intros Hgt. unfold npu_dma_transfer. rewrite H.
    rewrite (proj2 (Z.gtb_lt _ _) (Z.gt_lt _ _ Hgt)).
    cbn [set_dma_buffers dma_buffers]. rewrite ref_update_cancel.
    rewrite set_dma_buffers_twice, set_dma_buffers_same. reflexivity.
  - intros Hle r d'. unfold npu_dma_transfer. rewrite H.
    replace (_ >? buf_size b) with false
      by (symmetry; rewrite Z.gtb_ltb; apply Z.ltb_ge; exact Hle).
    destruct (negb _).
    + destruct (npu_wait_irq _ _ _) as [[r6 d6]|] eqn:W; [|discriminate].
      intros [= <- <-]. apply npu_wait_irq_log in W. destruct W as [rest W].
      exists (map fst rest).
      rewrite mmio_log_set_dma_buffers, W, !mmio_log_iowrite32, mmio_log_set_dma_buffers.
      rewrite <- !app_assoc, !map_app. reflexivity.
    + intros [= <- <-]. exists [].
      rewrite mmio_log_set_dma_buffers, !mmio_log_iowrite32, mmio_log_set_dma_buffers.
      rewrite <- !app_assoc, !map_app. reflexivity.
  - intros Hb. split; [lia|]. replace (to_u64 (2 ^ 63 + 2 ^ 63)) with 0 by reflexivity. lia.
Qed.

Lemma C9_wrapped_bounds_check_witness :
  let b := mk_buf 0 4096 4096 1 1 1 in
  let d := set_dma_buffers [b] (probe_dev 4096) in
  let t := mk_xfer 1 (2 ^ 63) (2 ^ 63) 0 0 0 0 in
  exists rest,
  map fst (mmio_log (snd (match npu_dma_transfer (mk_env None None) t d with
                          | Some p => p | None => (0, d) end))) =
    [REG_DMA_SRC; REG_DMA_DST; REG_DMA_SIZE; REG_DMA_CTRL] ++ rest.
Proof.
  intros b d t.
  destruct (npu_dma_transfer (mk_env None None) t d) as [[r d']|] eqn:E.
  - exact (proj1 (proj2 (C9_wrapped_bounds_check (mk_env None None) t d b eq_refl))
             ltac:(vm_compute; discriminate) r d' E).
  - vm_compute in E. discriminate E.
Defined.

(** ** C10: [npu_free_dma_buffer] *)

Lemma find_buf_list_del_nodup l id :
  NoDup (map buf_buffer_id l) -> find_buf (list_del_id l id) id = None.
Proof.
  induction l as [|x l IH]; intros Hnd; [reflexivity|].
  cbn [map] in Hnd. apply NoDup_cons_iff in Hnd as [Hx Hnd]. simpl.
  destruct (Z.eqb_spec (buf_buffer_id x) id) as [<-|Hne].
  - apply find_buf_none_absent. intros b Hb Heq. apply Hx.
    rewrite <- Heq. apply in_map. exact Hb.
  - simpl. destruct (Z.eqb_spec (buf_buffer_id x) id); [contradiction|]. exact (IH Hnd).
Qed.

(** C10 (counterexample): ids are not unique once the 32-bit counter
    wraps.  Buffer 1 is allocated and kept; after 2^32 - 1 allocate-then-free
    rounds a second buffer also gets id 1.  [free 1] then succeeds, and a
    second [free 1] succeeds as well instead of failing [-ENOENT]. *)
Lemma C10_second_free_after_wrap :
  let mem := (0, 0) in
  match npu_alloc_dma_buffer (Some mem) 4096 0 (probe_dev 4096) with
  | (_, d1, Some id1) =>
      match npu_alloc_dma_buffer (Some mem) 4096 0
              (alloc_free_rounds (Z.to_nat (2 ^ 32 - 1)) mem d1) with
      | (_, d2, Some id2) =>
          id1 = 1 /\ id2 = 1 /\
          fst (fst (npu_free_dma_buffer 1 d2)) = 0 /\
          fst (fst (npu_free_dma_buffer 1 (snd (npu_free_dma_buffer 1 d2)))) = 0
      | _ => False
      end
  | _ => False
  end.
Proof.
  intros mem.
  set (D1 := set_dma_buffers [mk_buf 0 0 4096 0 1 1] (set_next_buffer_id 2 (probe_dev 4096))).
  assert (H1 : npu_alloc_dma_buffer (Some mem) 4096 0 (probe_dev 4096) = (0, D1, Some 1))
    by reflexivity.
  rewrite H1. rewrite alloc_free_rounds_eq.
  - rewrite Z2Nat.id by lia. vm_compute. repeat split.
  - vm_compute. split; congruence.
  - intros k b Hk Hb. simpl in Hb. destruct Hb as [<-|[]].
    change (next_buffer_id D1) with 2. change (buf_buffer_id (mk_buf 0 0 4096 0 1 1)) with 1.
    apply Nat2Z.inj_lt in Hk. rewrite Z2Nat.id in Hk by lia.
    unfold to_u32, u32_mod.
    destruct (Z.lt_ge_cases (2 + Z.of_nat k) (2 ^ 32)).
    + rewrite Z.mod_small by lia. lia.
    + replace (2 + Z.of_nat k) with (2 ^ 32) by lia. rewrite Z.mod_same by lia. lia.
Qed.

(** C10 (amended): [free] of a registered id returns 0 and unlinks the
    first buffer with that id whatever its reference count; the memory is
    released only when the count drops to 0.  When the ids in the registry
    are distinct (they can collide only after the 32-bit id counter wraps),
    a later [free] or DMA transfer naming that id fails [-ENOENT]. *)
Theorem C10_amended_free :
  forall env t d b,
  find_buf (dma_buffers d) (xfer_buffer_id t) = Some b ->
  let id := xfer_buffer_id t in
  let '(r, released, d') := npu_free_dma_buffer id d in
  r = 0 /\ released = (buf_ref_count b =? 1) /\
  dma_buffers d' = list_del_id (dma_buffers d) id /\
  (NoDup (map buf_buffer_id (dma_buffers d)) ->
     npu_free_dma_buffer id d' = (- ENOENT, false, d') /\
     npu_dma_transfer env t d' = Some (- ENOENT, d')).
Proof.
  intros env t d b H id. unfold npu_free_dma_buffer at 1. subst id. rewrite H.
  split; [reflexivity|]. split.
  { destruct (Z.eqb_spec (buf_ref_count b - 1) 0); destruct (Z.eqb_spec (buf_ref_count b) 1);
      reflexivity || lia. }
  split; [destruct d; reflexivity|].
  intros Hnd. pose proof (find_buf_list_del_nodup _ (xfer_buffer_id t) Hnd) as Hn.
  split.
  - unfold npu_free_dma_buffer. cbn [set_dma_buffers dma_buffers].
    destruct d; cbn in Hn |- *. rewrite Hn. reflexivity.
  - unfold npu_dma_transfer. destruct d; cbn in Hn |- *. rewrite Hn. reflexivity.
Qed.

Lemma C10_amended_free_witness :
  let b := mk_buf 0 4096 4096 1 1 3 in
  let d := set_dma_buffers [b] (probe_dev 4096) in
  npu_free_dma_buffer 1 d = (0, false, set_dma_buffers [] (probe_dev 4096)) /\
  npu_free_dma_buffer 1 (set_dma_buffers [] (probe_dev 4096)) =
    (- ENOENT, false, set_dma_buffers [] (probe_dev 4096)).
Proof.
  intros b d.
  pose proof (C10_amended_free (mk_env None None) (mk_xfer 1 0 4096 0 0 0 0) d b eq_refl) as W.
  cbn beta zeta iota delta [xfer_buffer_id] in W.
  change (npu_free_dma_buffer 1 d) with (0, false, set_dma_buffers [] (probe_dev 4096)) in W.
  destruct W as [_ [_ [_ W]]].
  split; [reflexivity|]. apply W. repeat constructor. intros [].
Defined.

(** * Further properties *)

(** ** Supporting lemmas *)

Lemma npu_wait_irq_clears env t d r d' :
  npu_wait_irq env t d = Some (r, d') -> interrupt_received d' = false.
Proof.
  unfold npu_wait_irq. destruct (t =? 0).
  - destruct (wait_event_interruptible env d) as [[? ?]|]; [inv_some; destruct f; reflexivity|no_some].
  - destruct (wait_event_interruptible_timeout env t d). inv_some. destruct f; reflexivity.
Qed.

Lemma lor_shiftl_low x y k :
  0 <= k -> 0 <= y < 2 ^ k -> Z.lor (Z.shiftl x k) y = x * 2 ^ k + y.
Proof.
  intros Hk Hy.
  assert (Hl : Z.land (Z.shiftl x k) y = 0).
  { apply Z.bits_inj'. intros n Hn. rewrite Z.land_spec, Z.bits_0.
    destruct (Z.lt_ge_cases n k).
    - rewrite Z.shiftl_spec_low by lia. reflexivity.
    - rewrite <- (Z.mod_small y (2 ^ k)) by lia.
      rewrite Z.mod_pow2_bits_high by lia. apply andb_false_r. }
  rewrite <- Z.lxor_lor by exact Hl.
  rewrite <- Z.add_nocarry_lxor by exact Hl.
  rewrite Z.shiftl_mul_pow2 by lia. reflexivity.
Qed.

Lemma to_u32_idem x : to_u32 (to_u32 x) = to_u32 x.
Proof. unfold to_u32. apply Z.mod_mod. unfold u32_mod. lia. Qed.

Lemma land_255 x : Z.land x 255 = x mod 256.
Proof. change 255 with (Z.ones 8). rewrite Z.land_ones by lia. reflexivity. Qed.

(** ** Driver *)

(** [poll] reports the device readable (POLLIN | POLLRDNORM) once the
    completion interrupt has been handled, and no longer after a waiter
    (WAIT_COMPLETION or a blocking transfer) has returned, whatever the
    status register says. *)
Theorem poll_readable_until_wait :
  (forall status st d, Z.land st STATUS_DONE <> 0 ->
     Z.land (fpga_npu_poll status (fpga_npu_interrupt st d)) (Z.lor POLLIN POLLRDNORM)
     = Z.lor POLLIN POLLRDNORM) /\
  (forall status env t d r d', npu_wait_irq env t d = Some (r, d') ->
     Z.land (fpga_npu_poll status d') (Z.lor POLLIN POLLRDNORM) = 0).
Proof.
  split.
  - intros status st d Hst. unfold fpga_npu_poll, fpga_npu_interrupt.
    destruct (Z.eqb_spec (Z.land st STATUS_DONE) 0) as [E|_]; [contradiction|].
    destruct d; cbn [set_interrupt_received iowrite32 interrupt_received].
    destruct (Z.land status STATUS_READY =? 0); reflexivity.
  - intros status env t d r d' W. apply npu_wait_irq_clears in W.
    unfold fpga_npu_poll. rewrite W.
    destruct (Z.land status STATUS_READY =? 0); reflexivity.
Qed.

Lemma poll_readable_until_wait_witness :
  Z.land STATUS_DONE STATUS_DONE <> 0 /\
  Z.land (fpga_npu_poll 1 (fpga_npu_interrupt STATUS_DONE (probe_dev 0)))
    (Z.lor POLLIN POLLRDNORM) = Z.lor POLLIN POLLRDNORM /\
  npu_wait_irq (mk_env None None) 5 (probe_dev 0) = Some (- ETIMEDOUT, probe_dev 0) /\
  Z.land (fpga_npu_poll 1 (probe_dev 0)) (Z.lor POLLIN POLLRDNORM) = 0.
Proof.
  split; [vm_compute; discriminate|]. split.
  - apply (proj1 poll_readable_until_wait). vm_compute; discriminate.
  - split; [reflexivity|].
    exact (proj2 poll_readable_until_wait 1 (mk_env None None) 5 (probe_dev 0) (- ETIMEDOUT)
             (probe_dev 0) eq_refl).
Defined.





(** The instruction word is [op << 24 | (src1 & 0xFF) << 16 | (src2 & 0xFF) << 8
    | (dst & 0xFF)] truncated to 32 bits: as a number, the low bytes of the
    four fields side by side. *)
Lemma instruction_word_eq o s1 s2 t :
  to_u32 (Z.lor (Z.lor (Z.lor (Z.shiftl (to_u32 o) 24) (Z.shiftl (Z.land s1 0xFF) 16))
                       (Z.shiftl (Z.land s2 0xFF) 8))
                (Z.land t 0xFF))
  = Z.land o 255 * 2 ^ 24 + Z.land s1 255 * 2 ^ 16 + Z.land s2 255 * 2 ^ 8 + Z.land t 255.
Proof.
  rewrite <- !Z.lor_assoc, !land_255.
  pose proof (Z.mod_pos_bound s1 256 ltac:(lia)).
  pose proof (Z.mod_pos_bound s2 256 ltac:(lia)).
  pose proof (Z.mod_pos_bound t 256 ltac:(lia)).
  rewrite (lor_shiftl_low (s2 mod 256) (t mod 256) 8) by lia.
  rewrite (lor_shiftl_low (s1 mod 256) _ 16) by lia.
  rewrite (lor_shiftl_low (to_u32 o) _ 24) by lia.
  unfold to_u32, u32_mod.
  set (y := s1 mod 256 * 2 ^ 16 + (s2 mod 256 * 2 ^ 8 + t mod 256)).
  assert (Hy : 0 <= y < 2 ^ 24) by (subst y; lia).
  assert (Ho : (o mod 2 ^ 32) mod 2 ^ 8 = o mod 256)
    by (apply Z.mod_mod_divide; exists (2 ^ 24); reflexivity).
  pose proof (Z.div_mod (o mod 2 ^ 32) (2 ^ 8) ltac:(lia)) as Hd.
  pose proof (Z.mod_pos_bound o 256 ltac:(lia)).
  symmetry. apply Z.mod_unique with (q := o mod 2 ^ 32 / 2 ^ 8).
  - subst y. lia.
  - rewrite Hd at 1. rewrite Ho. subst y. lia.
Qed.

(** [npu_execute_instruction] always returns 0 and writes exactly three
    registers: DATA_ADDR gets the low bytes of operation, src1, src2 and dst
    packed into one word (the higher bits of every field are dropped),
    DATA_SIZE the size truncated to 32 bits, and CONTROL [ENABLE | START]
    (5), with bit 8 added (261) for a high-priority instruction.  The
    operation counter is incremented (modulo 2^64) only for a profiled
    instruction. *)
Theorem execute_instruction_registers inst d :
  let w := Z.land (operation inst) 255 * 2 ^ 24 + Z.land (src1_addr inst) 255 * 2 ^ 16
           + Z.land (src2_addr inst) 255 * 2 ^ 8 + Z.land (dst_addr inst) 255 in
  let ctrl := if Z.land (inst_flags inst) NPU_INST_FLAG_HIGH_PRIORITY =? 0 then 5 else 261 in
  fst (npu_execute_instruction inst d) = 0 /\
  mmio_log (snd (npu_execute_instruction inst d)) =
    mmio_log d ++ [(REG_DATA_ADDR, w); (REG_DATA_SIZE, to_u32 (inst_size inst));
                   (REG_CONTROL, ctrl)] /\
  perf_operations (snd (npu_execute_instruction inst d)) =
    (if Z.land (inst_flags inst) NPU_INST_FLAG_PROFILE =? 0 then perf_operations d
     else to_u64 (perf_operations d + 1)).
Proof.
  intros w ctrl. unfold npu_execute_instruction.
  split; [reflexivity|].
  assert (Hw : to_u32 (to_u32 (Z.lor (Z.lor (Z.lor (Z.shiftl (to_u32 (operation inst)) 24)
                 (Z.shiftl (Z.land (src1_addr inst) 0xFF) 16))
                 (Z.shiftl (Z.land (src2_addr inst) 0xFF) 8)) (Z.land (dst_addr inst) 0xFF))) = w).
  { rewrite to_u32_idem. apply instruction_word_eq. }
  assert (Hc : to_u32 (if Z.land (inst_flags inst) NPU_INST_FLAG_HIGH_PRIORITY =? 0
                       then Z.lor CTRL_ENABLE CTRL_START
                       else Z.lor (Z.lor CTRL_ENABLE CTRL_START) (BIT 8)) = ctrl).
  { subst ctrl. destruct (_ =? 0); reflexivity. }
  destruct (Z.land (inst_flags inst) NPU_INST_FLAG_PROFILE =? 0);
    cbn [snd mmio_log iowrite32 set_perf_operations perf_operations];
    rewrite <- !app_assoc; rewrite Hw, Hc; split; reflexivity.
Qed.

(** Allocating a buffer and then freeing the id it was given returns 0
    twice, reports the backing memory released, and leaves the device as it
    was except for the advanced id counter; provided the id handed out is
    not already registered. *)
Theorem alloc_then_free (mem : Z * Z) (size flags : Z) (d : fpga_npu_dev) :
  NPU_MIN_BUFFER_SIZE <= size <= NPU_MAX_BUFFER_SIZE ->
  (forall b, In b (dma_buffers d) -> buf_buffer_id b <> next_buffer_id d) ->
  let '(r, d1, oid) := npu_alloc_dma_buffer (Some mem) size flags d in
  r = 0 /\ oid = Some (next_buffer_id d) /\
  npu_free_dma_buffer (next_buffer_id d) d1 =
    (0, true, set_next_buffer_id (to_u32 (next_buffer_id d + 1)) d).
Proof.
  intros Hs H. destruct mem as [cpu h]. unfold npu_alloc_dma_buffer.
  replace ((size <? NPU_MIN_BUFFER_SIZE) || (size >? NPU_MAX_BUFFER_SIZE)) with false
    by (symmetry; apply orb_false_iff; rewrite Z.gtb_ltb; split; apply Z.ltb_ge; lia).
  split; [reflexivity|]. split; [reflexivity|].
  unfold npu_free_dma_buffer. cbn [dma_buffers set_dma_buffers set_next_buffer_id].
  rewrite find_buf_app_absent by (simpl; auto).
  cbn [dma_buffers set_dma_buffers find_buf buf_buffer_id buf_ref_count].
  rewrite Z.eqb_refl.
  rewrite list_del_id_app_absent by (simpl; auto).
  destruct d; reflexivity.
Qed.

Lemma alloc_then_free_witness :
  NPU_MIN_BUFFER_SIZE <= 8192 <= NPU_MAX_BUFFER_SIZE /\
  npu_free_dma_buffer 1 (snd (fst (npu_alloc_dma_buffer (Some (0, 4096)) 8192 0 (probe_dev 0))))
  = (0, true, set_next_buffer_id 2 (probe_dev 0)).
Proof.
  split; [vm_compute; split; discriminate|].
  exact (proj2 (proj2 (alloc_then_free (0, 4096) 8192 0 (probe_dev 0)
                         ltac:(vm_compute; split; discriminate)
                         (fun b (Hb : In b []) => match Hb with end)))).
Defined.

(** ** Library *)

Lemma inst_bytes_length i : length (Lib.inst_bytes i) = 36%nat.
Proof. reflexivity. Qed.

Lemma flat_map_inst_bytes_length l : length (flat_map Lib.inst_bytes l) = (36 * length l)%nat.
Proof.
  induction l as [|i l IH]; [reflexivity|].
  cbn [flat_map length]. rewrite length_app, inst_bytes_length, IH. lia.
Qed.

Lemma firstn_flat_map_inst_bytes n l :
  firstn (36 * n) (flat_map Lib.inst_bytes l) = flat_map Lib.inst_bytes (firstn n l).
Proof.
  revert l. induction n as [|n IH]; intros l; [reflexivity|].
  destruct l as [|i l]; [cbn [flat_map]; rewrite !firstn_nil; reflexivity|].
  cbn [flat_map firstn].
  replace (36 * S n)%nat with (length (Lib.inst_bytes i) + 36 * n)%nat
    by (rewrite inst_bytes_length; lia).
  rewrite firstn_app_2, IH. reflexivity.
Qed.

Lemma firstn_splice0 buf src : firstn (length src) (Lib.splice buf 0 src) = src.
Proof.
  unfold Lib.splice. cbn [Z.to_nat firstn app].
  rewrite <- (Nat.add_0_r (length src)) at 1. rewrite firstn_app_2. apply app_nil_r.
Qed.

Lemma fst_fpga_npu_write bytes d :
  fst (fpga_npu_write bytes d) = Z.min (Z.of_nat (length bytes)) (dma_size d).
Proof. reflexivity. Qed.

Lemma sys_write_driver bytes ctx d env :
  Lib.sys_write bytes (ctx, mk_sys d env) =
  Done ((if fst (fpga_npu_write bytes d) <? 0 then -1 else fst (fpga_npu_write bytes d)),
        (ctx, mk_sys (snd (fpga_npu_write bytes d)) env)).
Proof.
  unfold Lib.sys_write. cbn [snd fst]. unfold k_write, driver_kernel. cbn [sdev senv].
  destruct (fpga_npu_write bytes d); reflexivity.
Qed.

Lemma sys_ioctl_driver cmd arg ctx d env :
  Lib.sys_ioctl cmd arg (ctx, mk_sys d env) =
  match fpga_npu_ioctl env cmd arg d with
  | Done (r, d') => Done ((if r <? 0 then -1 else r), (ctx, mk_sys d' env))
  | Blocked => Blocked
  | OutOfModel => OutOfModel
  end.
Proof.
  unfold Lib.sys_ioctl. cbn [snd fst]. unfold k_ioctl, driver_kernel. cbn [sdev senv].
  destruct (fpga_npu_ioctl env cmd arg d) as [[r d']| |]; reflexivity.
Qed.

(** Against the driver, the library's [npu_execute_instruction] hands the
    36 instruction bytes to [fpga_npu_write] and reports success exactly when
    the driver's DMA buffer has room for all 36 bytes; otherwise the driver
    truncates the write and the call reports [NPU_ERROR_DEVICE]. *)
Theorem lib_execute_instruction_driver inst ctx d env :
  Lib.npu_execute_instruction inst (ctx, mk_sys d env) =
  Done (if 36 <=? dma_size d then Lib.NPU_SUCCESS else Lib.NPU_ERROR_DEVICE,
        (Lib.mk_ctx (Lib.splice (Lib.buffer ctx) 0 (Lib.inst_bytes inst))
           (Lib.buffer_size ctx) (Lib.buffer_offset ctx),
         mk_sys (snd (fpga_npu_write (Lib.inst_bytes inst) d)) env)).
Proof.
  cbv beta iota zeta delta [Lib.npu_execute_instruction Lib.bind Lib.get_ctx Lib.put_ctx
    Lib.ret fst snd].
  change (Z.to_nat Lib.sizeof_npu_instruction_t) with (length (Lib.inst_bytes inst)).
  rewrite firstn_splice0, sys_write_driver, fst_fpga_npu_write, inst_bytes_length.
  change (Z.of_nat 36) with 36. unfold Lib.sizeof_npu_instruction_t.
  destruct (Z.leb_spec 36 (dma_size d)).
  - rewrite Z.min_l by lia. reflexivity.
  - destruct (Z.ltb_spec (Z.min 36 (dma_size d)) 0);
      [reflexivity|]. rewrite (proj2 (Z.eqb_neq _ 36)) by lia. reflexivity.
Qed.

(** Against the driver, a batch of [count] instructions that fits in the
    shared buffer (and whose byte size does not wrap) is passed to
    [fpga_npu_write] as the [count] instructions' bytes, and the call
    reports success exactly when the driver's DMA buffer holds all
    [36 * count] bytes. *)
Theorem execute_batch_driver instrs count ctx d env :
  0 < count -> count * 36 <= Lib.buffer_size ctx -> count * 36 < u64_mod ->
  (Z.to_nat count <= length instrs)%nat ->
  let bytes := flat_map Lib.inst_bytes (firstn (Z.to_nat count) instrs) in
  LibExt.npu_execute_batch instrs count (ctx, mk_sys d env) =
  Done (if count * 36 <=? dma_size d then Lib.NPU_SUCCESS else Lib.NPU_ERROR_DEVICE,
        (Lib.mk_ctx (Lib.splice (Lib.buffer ctx) 0 bytes) (Lib.buffer_size ctx)
           (Lib.buffer_offset ctx),
         mk_sys (snd (fpga_npu_write bytes d)) env)).
Proof.
  intros Hc Hb Hw Hl bytes.
  cbv beta iota zeta delta [LibExt.npu_execute_batch Lib.bind Lib.get_ctx Lib.put_ctx
    Lib.ret fst snd].
  unfold Lib.sizeof_npu_instruction_t.
  replace (to_u64 (count * 36)) with (count * 36) by (symmetry; apply Z.mod_small; lia).
  rewrite (proj2 (Z.eqb_neq count 0)) by lia.
  replace (count * 36 >? Lib.buffer_size ctx) with false
    by (symmetry; rewrite Z.gtb_ltb; apply Z.ltb_ge; lia).
  assert (Hn : Z.to_nat (count * 36) = (36 * Z.to_nat count)%nat)
    by (rewrite Z2Nat.inj_mul by lia; apply Nat.mul_comm).
  assert (Hlen : length bytes = (36 * Z.to_nat count)%nat).
  { subst bytes. rewrite flat_map_inst_bytes_length, length_firstn. lia. }
  rewrite Hn, firstn_flat_map_inst_bytes. fold bytes.
  rewrite <- Hlen, firstn_splice0, sys_write_driver, fst_fpga_npu_write, Hlen.
  rewrite Nat2Z.inj_mul, Z2Nat.id by lia. change (Z.of_nat 36) with 36.
  destruct (Z.leb_spec (count * 36) (dma_size d)).
  - rewrite Z.min_l by lia. rewrite (proj2 (Z.ltb_ge _ 0)) by lia.
    rewrite Z.mul_comm, Z.eqb_refl. reflexivity.
  - destruct (Z.ltb_spec (Z.min (36 * count) (dma_size d)) 0).
    + rewrite (proj2 (Z.eqb_neq (-1) (count * 36))) by lia. reflexivity.
    + rewrite (proj2 (Z.eqb_neq _ (count * 36))) by lia. reflexivity.
Qed.

Lemma execute_batch_driver_witness :
  LibExt.npu_execute_batch [Lib.mk_uinst 1 0 0 0 4 [0; 0; 0; 0]] 1
    (Lib.mk_ctx (repeat 0 64) 64 0, mk_sys (probe_dev 0) (mk_env None None))
  = Done (Lib.NPU_SUCCESS,
          (Lib.mk_ctx (Lib.splice (repeat 0 64) 0 (Lib.inst_bytes (Lib.mk_uinst 1 0 0 0 4 [0; 0; 0; 0])))
             64 0,
           mk_sys (snd (fpga_npu_write (Lib.inst_bytes (Lib.mk_uinst 1 0 0 0 4 [0; 0; 0; 0]))
                          (probe_dev 0))) (mk_env None None))).
Proof.
  exact (execute_batch_driver [Lib.mk_uinst 1 0 0 0 4 [0; 0; 0; 0]] 1
           (Lib.mk_ctx (repeat 0 64) 64 0) (probe_dev 0) (mk_env None None)
           ltac:(lia) ltac:(vm_compute; discriminate) ltac:(vm_compute; reflexivity)
           ltac:(vm_compute; lia)).
Defined.

(** [npu_execute_batch] refuses a count of 0 ([NPU_ERROR_INVALID]) and a
    batch larger than the shared buffer ([NPU_ERROR_MEMORY]) without any
    system call, whatever the kernel.  But the size check sees
    [count * 36] modulo 2^64: a non-zero count whose byte size wraps to 0
    (a multiple of 2^62) passes it, nothing is copied, the driver is asked
    to write 0 bytes, starts the NPU with DATA_SIZE 0, and the call reports
    [NPU_SUCCESS]. *)
Theorem execute_batch_size_checks :
  (forall (K : Type) (HK : Kernel K) instrs ctx (k : K),
     LibExt.npu_execute_batch instrs 0 (ctx, k) = Done (Lib.NPU_ERROR_INVALID, (ctx, k))) /\
  (forall (K : Type) (HK : Kernel K) instrs count ctx (k : K),
     count <> 0 -> to_u64 (count * 36) > Lib.buffer_size ctx ->
     LibExt.npu_execute_batch instrs count (ctx, k) = Done (Lib.NPU_ERROR_MEMORY, (ctx, k))) /\
  (forall instrs count ctx d env,
     count <> 0 -> to_u64 (count * 36) = 0 -> 0 <= Lib.buffer_size ctx -> 0 <= dma_size d ->
     exists d', LibExt.npu_execute_batch instrs count (ctx, mk_sys d env) =
                Done (Lib.NPU_SUCCESS, (ctx, mk_sys d' env)) /\
                mmio_log d' = mmio_log d ++ [(REG_DATA_ADDR, to_u32 (dev_dma_handle d));
                                             (REG_DATA_SIZE, 0); (REG_CONTROL, 5)]).
Proof.
  split; [|split].
  - intros K HK instrs ctx k. reflexivity.
  - intros K HK instrs count ctx k H0 Hb.
    cbv beta iota zeta delta [LibExt.npu_execute_batch Lib.bind Lib.get_ctx Lib.ret fst].
    unfold Lib.sizeof_npu_instruction_t.
    rewrite (proj2 (Z.eqb_neq count 0)) by exact H0.
    replace (to_u64 (count * 36) >? Lib.buffer_size ctx) with true
      by (symmetry; rewrite Z.gtb_ltb; apply Z.ltb_lt; lia).
    reflexivity.
  - intros instrs count ctx d env H0 Hw Hb Hd.
    exists (snd (fpga_npu_write [] d)). split.
    + cbv beta iota zeta delta [LibExt.npu_execute_batch Lib.bind Lib.get_ctx Lib.put_ctx
        Lib.ret fst snd].
      unfold Lib.sizeof_npu_instruction_t. rewrite Hw.
      rewrite (proj2 (Z.eqb_neq count 0)) by exact H0.
      replace (0 >? Lib.buffer_size ctx) with false
        by (symmetry; rewrite Z.gtb_ltb; apply Z.ltb_ge; lia).
      cbn [Z.to_nat firstn].
      replace (Lib.splice (Lib.buffer ctx) 0 []) with (Lib.buffer ctx)
        by (unfold Lib.splice; reflexivity).
      rewrite sys_write_driver, fst_fpga_npu_write. cbn [length Z.of_nat].
      rewrite Z.min_l by exact Hd. destruct ctx; reflexivity.
    + unfold fpga_npu_write. cbn [snd mmio_log iowrite32 set_dev_dma_buffer length Z.of_nat].
      rewrite Z.min_l by exact Hd. rewrite <- !app_assoc. reflexivity.
Qed.

Lemma execute_batch_size_checks_witness :
  exists d', LibExt.npu_execute_batch [] (2 ^ 62)
               (Lib.mk_ctx [] 0 0, mk_sys (probe_dev 0) (mk_env None None)) =
             Done (Lib.NPU_SUCCESS, (Lib.mk_ctx [] 0 0, mk_sys d' (mk_env None None))) /\
             mmio_log d' = [(REG_DATA_ADDR, 0); (REG_DATA_SIZE, 0); (REG_CONTROL, 5)].
Proof.
  exact (proj2 (proj2 execute_batch_size_checks) [] (2 ^ 62) (Lib.mk_ctx [] 0 0) (probe_dev 0)
           (mk_env None None) ltac:(vm_compute; discriminate) ltac:(vm_compute; reflexivity)
           ltac:(vm_compute; discriminate) ltac:(vm_compute; discriminate)).
Defined.

Lemma ioctl_execute_driver env i d :
  fpga_npu_ioctl env NPU_IOCTL_EXECUTE_INSTRUCTION (ArgInst i) d =
  Done (0, snd (npu_execute_instruction i d)).
Proof. reflexivity. Qed.

Lemma wait_completion_driver t ctx d env :
  Lib.npu_wait_completion t (ctx, mk_sys d env) = Done (Lib.NPU_ERROR_DEVICE, (ctx, mk_sys d env)).
Proof. reflexivity. Qed.

(** [npu_add] and [npu_multiply] never read their operands: each issues
    exactly one [write] of a 36-byte instruction carrying only the operation
    and [c]'s size (all addresses 0), then [ioctl(fd, 1, 0)]; operand bytes
    are neither copied to the shared buffer nor sent to the kernel. *)
Theorem add_multiply_send_no_operands a b c ctx tr :
  let inst o := Lib.mk_uinst o 0 0 0 (to_u32 (Lib.tsize c)) [0; 0; 0; 0] in
  let ctx' o := Lib.mk_ctx (Lib.splice (Lib.buffer ctx) 0 (Lib.inst_bytes (inst o)))
                  (Lib.buffer_size ctx) (Lib.buffer_offset ctx) in
  LibExt.npu_add a b c (ctx, tr) =
    Done (Lib.NPU_SUCCESS, (ctx' LibExt.NPU_OP_ADD,
      tr ++ [LibExt.SysWrite (Lib.inst_bytes (inst LibExt.NPU_OP_ADD)); LibExt.SysIoctl 1 ArgNone])) /\
  LibExt.npu_multiply a b c (ctx, tr) =
    Done (Lib.NPU_SUCCESS, (ctx' LibExt.NPU_OP_MUL,
      tr ++ [LibExt.SysWrite (Lib.inst_bytes (inst LibExt.NPU_OP_MUL)); LibExt.SysIoctl 1 ArgNone])).
Proof.
  intros inst ctx'.
  split; cbv beta iota zeta delta [LibExt.npu_add LibExt.npu_multiply Lib.npu_execute_instruction
    Lib.npu_wait_completion Lib.bind Lib.get_ctx Lib.put_ctx Lib.ret Lib.sys_write Lib.sys_ioctl
    fst snd k_write k_ioctl LibExt.trace_kernel];
    [change (Z.to_nat Lib.sizeof_npu_instruction_t)
       with (length (Lib.inst_bytes (inst LibExt.NPU_OP_ADD)))
    |change (Z.to_nat Lib.sizeof_npu_instruction_t)
       with (length (Lib.inst_bytes (inst LibExt.NPU_OP_MUL)))];
    rewrite firstn_splice0, inst_bytes_length; cbn -[Lib.inst_bytes Lib.splice app to_u32];
    rewrite <- app_assoc; reflexivity.
Qed.

(** [npu_relu] refuses tensors of different sizes ([NPU_ERROR_INVALID])
    without any system call.  Otherwise, against the driver, the RELU
    instruction (operation 7, the input's size, flag ASYNC) is executed by
    the driver, and the call still reports [NPU_ERROR_DEVICE]: the wait
    that follows is refused. *)
Theorem relu_outcomes :
  (forall (K : Type) (HK : Kernel K) input output ctx (k : K),
     Lib.tsize input <> Lib.tsize output ->
     LibExt.npu_relu input output (ctx, k) = Done (Lib.NPU_ERROR_INVALID, (ctx, k))) /\
  (forall input output ctx d env,
     Lib.tsize input = Lib.tsize output ->
     LibExt.npu_relu input output (ctx, mk_sys d env) =
     Done (Lib.NPU_ERROR_DEVICE,
           (ctx, mk_sys (snd (npu_execute_instruction
                               (mk_inst LibExt.NPU_OP_RELU 0 0 0 (to_u32 (Lib.tsize input))
                                  (repeat 0 8) LibExt.NPU_INST_FLAG_ASYNC) d)) env))).
Proof.
  split.
  - intros K HK input output ctx k Hne. unfold LibExt.npu_relu.
    rewrite (proj2 (Z.eqb_neq _ _) Hne). reflexivity.
  - intros input output ctx d env Heq. unfold LibExt.npu_relu.
    rewrite Heq, Z.eqb_refl. cbn [negb]. rewrite <- Heq.
    unfold Lib.bind at 1. rewrite sys_ioctl_driver, ioctl_execute_driver.
    apply wait_completion_driver.
Qed.

Lemma relu_outcomes_witness :
  LibExt.npu_relu (Lib.mk_tensor [1] 1 [1; 1; 1; 1]) (Lib.mk_tensor [2; 3] 2 [1; 1; 1; 2])
    (Lib.mk_ctx [] 0 0, false) = Done (Lib.NPU_ERROR_INVALID, (Lib.mk_ctx [] 0 0, false)) /\
  LibExt.npu_relu (Lib.mk_tensor [1] 1 [1; 1; 1; 1]) (Lib.mk_tensor [0] 1 [1; 1; 1; 1])
    (Lib.mk_ctx [] 0 0, mk_sys (probe_dev 0) (mk_env None None)) =
  Done (Lib.NPU_ERROR_DEVICE,
        (Lib.mk_ctx [] 0 0,
         mk_sys (snd (npu_execute_instruction
                        (mk_inst LibExt.NPU_OP_RELU 0 0 0 (to_u32 1) (repeat 0 8)
                           LibExt.NPU_INST_FLAG_ASYNC) (probe_dev 0))) (mk_env None None))).
Proof.
  split.
  - exact (proj1 relu_outcomes bool mock_kernel (Lib.mk_tensor [1] 1 [1; 1; 1; 1])
             (Lib.mk_tensor [2; 3] 2 [1; 1; 1; 2]) (Lib.mk_ctx [] 0 0) false
             ltac:(vm_compute; discriminate)).
  - exact (proj2 relu_outcomes (Lib.mk_tensor [1] 1 [1; 1; 1; 1]) (Lib.mk_tensor [0] 1 [1; 1; 1; 1])
             (Lib.mk_ctx [] 0 0) (probe_dev 0) (mk_env None None) eq_refl).
Defined.

(** Against the driver, [npu_get_status] always fails with
    [NPU_ERROR_DEVICE] and changes nothing: it issues command 0, whose type
    byte is not the driver's, and the driver refuses it. *)
Theorem get_status_refused ctx d env :
  LibExt.npu_get_status (ctx, mk_sys d env) = Done (Lib.NPU_ERROR_DEVICE, (ctx, mk_sys d env)).
Proof. reflexivity. Qed.

Lemma splice_read buf off src n :
  0 <= off -> (Z.to_nat off <= length buf)%nat -> (n <= length src)%nat ->
  firstn n (skipn (Z.to_nat off) (Lib.splice buf off (firstn n src))) = firstn n src.
Proof.
  intros H0 H1 H2. unfold Lib.splice.
  rewrite skipn_app, length_firstn, Nat.min_l by exact H1.
  rewrite (skipn_all2 (firstn _ buf)) by (rewrite length_firstn; lia).
  rewrite Nat.sub_diag. cbn [skipn app].
  assert (Hl : length (firstn n src) = n) by (rewrite length_firstn; lia).
  rewrite <- Hl at 1. rewrite <- (Nat.add_0_r (length (firstn n src))) at 1.
  rewrite firstn_app_2. apply app_nil_r.
Qed.

(** Copying a tensor into the shared buffer with [copy_tensor_to_buffer]
    and copying it back from the offset it returned fills the destination
    tensor with the source tensor's bytes (the rest of the destination is
    kept): copying back into the same tensor gives the tensor back.  This
    holds when the tensor fits between the current offset and
    [buffer_size]. *)
Theorem copy_tensor_round_trip (K : Type) t t' ctx (k : K) :
  0 <= Lib.buffer_offset ctx -> 0 <= Lib.tsize t -> Lib.tsize t' = Lib.tsize t ->
  (Z.to_nat (Lib.tsize t) <= length (Lib.tdata t))%nat ->
  Lib.buffer_offset ctx + Lib.tsize t <= Lib.buffer_size ctx ->
  Lib.buffer_size ctx <= Z.of_nat (length (Lib.buffer ctx)) ->
  let n := Z.to_nat (Lib.tsize t) in
  exists s', Lib.bind (Lib.copy_tensor_to_buffer t)
               (fun r => Lib.copy_tensor_from_buffer t' (snd r)) (ctx, k) =
             Done ((Lib.NPU_SUCCESS,
                    Lib.mk_tensor (firstn n (Lib.tdata t) ++ skipn n (Lib.tdata t'))
                      (Lib.tsize t') (Lib.dims t')), s').
Proof.
  destruct ctx as [buf size off]. cbn [Lib.buffer Lib.buffer_size Lib.buffer_offset].
  intros Ho Hs Ht Hl Hfit Hbuf. eexists.
  cbv beta iota zeta delta [Lib.bind Lib.copy_tensor_to_buffer Lib.copy_tensor_from_buffer
    Lib.get_ctx Lib.put_ctx Lib.ret fst snd Lib.buffer Lib.buffer_size Lib.buffer_offset].
  rewrite to_u64_gtb_false by lia.
  replace (off + Lib.tsize t >? size) with false
    by (symmetry; rewrite Z.gtb_ltb; apply Z.ltb_ge; lia).
  rewrite Ht, to_u64_gtb_false by lia.
  replace (off + Lib.tsize t >? size) with false
    by (symmetry; rewrite Z.gtb_ltb; apply Z.ltb_ge; lia).
  rewrite splice_read by lia. reflexivity.
Qed.

Lemma copy_tensor_round_trip_witness :
  exists s', Lib.bind (Lib.copy_tensor_to_buffer (Lib.mk_tensor [1; 2; 3] 3 [1; 1; 1; 3]))
               (fun r => Lib.copy_tensor_from_buffer (Lib.mk_tensor [0; 0; 0; 9] 3 [1; 1; 1; 3]) (snd r))
               (Lib.mk_ctx (repeat 0 8) 8 2, tt) =
             Done ((Lib.NPU_SUCCESS, Lib.mk_tensor [1; 2; 3; 9] 3 [1; 1; 1; 3]), s').
Proof.
  exact (copy_tensor_round_trip unit (Lib.mk_tensor [1; 2; 3] 3 [1; 1; 1; 3])
           (Lib.mk_tensor [0; 0; 0; 9] 3 [1; 1; 1; 3]) (Lib.mk_ctx (repeat 0 8) 8 2) tt
           ltac:(vm_compute; discriminate) ltac:(vm_compute; discriminate) eq_refl
           ltac:(vm_compute; lia) ltac:(vm_compute; discriminate) ltac:(vm_compute; discriminate)).
Defined.

(** [npu_alloc] hands out consecutive, disjoint regions inside the shared
    buffer as long as [buffer_offset + size] does not wrap around 2^64
    (buffer below 4 GiB, sizes below 2^64 - 2^32).  A size that does wrap,
    [2^64 - buffer_offset], is accepted: it returns the current offset and
    resets the offset to 0, so later allocations overlap earlier ones. *)
Theorem npu_alloc_regions :
  (forall ctx s1 s2 p1 c1 p2 c2,
     0 <= Lib.buffer_offset ctx < u32_mod -> Lib.buffer_size ctx < u32_mod ->
     0 <= s1 < u64_mod - u32_mod -> 0 <= s2 < u64_mod - u32_mod ->
     LibExt.npu_alloc s1 ctx = (Some p1, c1) -> LibExt.npu_alloc s2 c1 = (Some p2, c2) ->
     Lib.buffer_offset ctx = p1 /\ p2 = p1 + s1 /\ p2 + s2 <= Lib.buffer_size ctx) /\
  (forall ctx, 0 < Lib.buffer_offset ctx < u32_mod -> 0 <= Lib.buffer_size ctx ->
     LibExt.npu_alloc (u64_mod - Lib.buffer_offset ctx) ctx =
     (Some (Lib.buffer_offset ctx), Lib.mk_ctx (Lib.buffer ctx) (Lib.buffer_size ctx) 0)).
Proof.
  split.
  - intros [buf size off] s1 s2 p1 c1 p2 c2. cbn [Lib.buffer_offset Lib.buffer_size].
    intros Ho Hb H1 H2 E1 E2. unfold LibExt.npu_alloc in E1, E2.
    cbn [Lib.buffer_offset Lib.buffer_size Lib.buffer] in E1.
    destruct (s1 =? 0); [discriminate|].
    rewrite Z.gtb_ltb in E1. unfold to_u64 in E1. rewrite Z.mod_small in E1 by lia.
    destruct (Z.ltb_spec size (off + s1)); [discriminate|].
    injection E1 as <- <-. cbn [Lib.buffer_offset Lib.buffer_size Lib.buffer] in E2.
    unfold to_u32 in E2. rewrite (Z.mod_small (off + s1)) in E2 by lia.
    destruct (s2 =? 0); [discriminate|].
    rewrite Z.gtb_ltb in E2. unfold to_u64 in E2. rewrite Z.mod_small in E2 by lia.
    destruct (Z.ltb_spec size (off + s1 + s2)); [discriminate|].
    injection E2 as <- _. lia.
  - intros [buf size off]. cbn [Lib.buffer_offset Lib.buffer_size Lib.buffer].
    intros Ho Hb. unfold LibExt.npu_alloc. cbn [Lib.buffer_offset Lib.buffer_size Lib.buffer].
    rewrite (proj2 (Z.eqb_neq _ 0)) by (unfold u64_mod, u32_mod in *; lia).
    replace (off + (u64_mod - off)) with u64_mod by ring.
    replace (to_u64 u64_mod >? size) with false
      by (symmetry; unfold to_u64; rewrite Z.mod_same by (unfold u64_mod; lia);
          rewrite Z.gtb_ltb; apply Z.ltb_ge; lia).
    reflexivity.
Qed.

Lemma npu_alloc_regions_witness :
  LibExt.npu_alloc (u64_mod - 16) (Lib.mk_ctx [] 64 16) = (Some 16, Lib.mk_ctx [] 64 0) /\
  LibExt.npu_alloc 16 (Lib.mk_ctx [] 64 0) = (Some 0, Lib.mk_ctx [] 64 16) /\
  LibExt.npu_alloc 32 (Lib.mk_ctx [] 64 16) = (Some 16, Lib.mk_ctx [] 64 48) /\
  (0 = 0 /\ 16 = 0 + 16 /\ 16 + 32 <= 64).
Proof.
  split.
  - exact (proj2 npu_alloc_regions (Lib.mk_ctx [] 64 16) ltac:(vm_compute; split; reflexivity)
             ltac:(vm_compute; discriminate)).
  - split; [reflexivity|]. split; [reflexivity|].
    exact (proj1 npu_alloc_regions (Lib.mk_ctx [] 64 0) 16 32 0 (Lib.mk_ctx [] 64 16) 16
             (Lib.mk_ctx [] 64 48) ltac:(vm_compute; split; [discriminate|reflexivity])
             ltac:(vm_compute; reflexivity) ltac:(vm_compute; split; [discriminate|reflexivity])
             ltac:(vm_compute; split; [discriminate|reflexivity]) eq_refl eq_refl).
Defined.

(** ** Managed buffers *)

Module ManagedFacts.
Import Managed.

Definition size_of (h : Z -> option npu_buffer) (p : Z) : Z :=
  match h p with Some b => nb_size b | None => 0 end.

Lemma slot_sum_cons_some h p l : slot_sum h (Some p :: l) = size_of h p + slot_sum h l.
Proof. reflexivity. Qed.

Lemma slot_sum_ext h h' l :
  (forall q, In q (live l) -> size_of h q = size_of h' q) -> slot_sum h l = slot_sum h' l.
Proof.
  induction l as [|[q|] l IH]; intros H; [reflexivity| |].
  - cbn [slot_sum fold_right]. fold (slot_sum h l) (slot_sum h' l).
    change (size_of h q + slot_sum h l = size_of h' q + slot_sum h' l).
    rewrite (H q (or_introl eq_refl)), IH; [reflexivity|].
    intros r Hr. apply H. right. exact Hr.
  - cbn [slot_sum fold_right]. apply IH. exact H.
Qed.

Lemma length_set_nth {A} n (x : A) l : length (set_nth n x l) = length l.
Proof. revert n. induction l as [|y l IH]; intros [|n]; cbn; auto. Qed.

Lemma set_nth_none_live j p l :
  nth_error l j = Some None -> Permutation (live (set_nth j (Some p) l)) (p :: live l).
Proof.
  revert j. induction l as [|o l IH]; intros [|j] H; try discriminate; cbn in H.
  - injection H as ->. reflexivity.
  - cbn [set_nth live flat_map]. fold (live (set_nth j (Some p) l)) (live l).
    destruct o as [q|]; cbn [app].
    + rewrite (IH j H). apply perm_swap.
    + apply IH, H.
Qed.

Lemma slot_sum_set_nth h j p l :
  nth_error l j = Some None -> slot_sum h (set_nth j (Some p) l) = size_of h p + slot_sum h l.
Proof.
  revert j. induction l as [|o l IH]; intros [|j] H; try discriminate; cbn in H.
  - injection H as ->. reflexivity.
  - cbn [set_nth]. destruct o as [q|].
    + rewrite !slot_sum_cons_some, (IH j H). lia.
    + apply (IH j H).
Qed.

Lemma slot_count_set_nth j p l :
  nth_error l j = Some None -> slot_count (set_nth j (Some p) l) = slot_count l + 1.
Proof.
  unfold slot_count. revert j. induction l as [|o l IH]; intros [|j] H; try discriminate; cbn in H.
  - injection H as ->. cbn. lia.
  - cbn [set_nth filter]. specialize (IH j H).
    destruct o; cbn [length]; lia.
Qed.

Lemma slot_count_le l : slot_count l <= Z.of_nat (length l).
Proof. unfold slot_count. pose proof (filter_length_le (fun o => match o with Some _ => true | None => false end) l). lia. Qed.

Lemma clear_slot_live p l :
  In p (live l) -> NoDup (live l) -> Permutation (live l) (p :: live (clear_slot p l)).
Proof.
  induction l as [|[q|] l IH]; intros Hin Hnd; cbn in Hin |- *; [contradiction| |].
  - fold (live l) in Hin, Hnd |- *. destruct (Z.eqb_spec q p) as [->|Hne].
    + cbn. fold (live l). reflexivity.
    + cbn [live flat_map app]. fold (live (clear_slot p l)).
      destruct Hin as [->|Hin]; [congruence|].
      inversion Hnd; subst. rewrite (IH Hin ltac:(assumption)). apply perm_swap.
  - fold (live l) in Hin, Hnd |- *. cbn. fold (live (clear_slot p l)). apply IH; assumption.
Qed.

Lemma clear_slot_sum h p l :
  In p (live l) -> NoDup (live l) -> slot_sum h l = size_of h p + slot_sum h (clear_slot p l).
Proof.
  induction l as [|[q|] l IH]; intros Hin Hnd; cbn in Hin; [contradiction| |].
  - fold (live l) in Hin, Hnd. cbn [clear_slot]. destruct (Z.eqb_spec q p) as [->|Hne].
    + reflexivity.
    + rewrite !slot_sum_cons_some. destruct Hin as [->|Hin]; [congruence|].
      inversion Hnd; subst. rewrite (IH Hin ltac:(assumption)). lia.
  - fold (live l) in Hin, Hnd. apply IH; assumption.
Qed.

Lemma clear_slot_count p l :
  In p (live l) -> slot_count l = slot_count (clear_slot p l) + 1.
Proof.
  unfold slot_count. induction l as [|[q|] l IH]; intros Hin; cbn in Hin; [contradiction| |].
  - fold (live l) in Hin. cbn [clear_slot]. destruct (Z.eqb_spec q p) as [->|Hne].
    + cbn. lia.
    + destruct Hin as [->|Hin]; [congruence|]. specialize (IH Hin). cbn. lia.
  - fold (live l) in Hin. specialize (IH Hin). cbn. exact IH.
Qed.

Lemma length_clear_slot p l : length (clear_slot p l) = length l.
Proof. induction l as [|[q|] l IH]; cbn; try destruct (q =? p); cbn; auto. Qed.

Lemma find_slot_from_spec i l :
  find_slot_from i l = -1 /\ ~ In None l \/
  exists j, find_slot_from i l = Z.of_nat (i + j) /\ nth_error l j = Some None.
Proof.
  revert i. induction l as [|[q|] l IH]; intros i.
  - left. split; [reflexivity|]. intros [].
  - destruct (IH (S i)) as [[E Hn]|(j & E & Hj)].
    + left. split; [exact E|]. intros [H|H]; [discriminate|contradiction].
    + right. exists (S j). split; [cbn; rewrite E; f_equal; lia|exact Hj].
  - right. exists 0%nat. split; [cbn; f_equal; lia|reflexivity].
Qed.

Lemma find_buffer_slot_spec c :
  length (managed_buffers c) = MAX_MANAGED_BUFFERS ->
  find_buffer_slot c = -1 /\ ~ In None (managed_buffers c) \/
  exists j, find_buffer_slot c = Z.of_nat j /\ nth_error (managed_buffers c) j = Some None.
Proof.
  intros Hl. unfold find_buffer_slot. rewrite firstn_all2 by lia.
  apply (find_slot_from_spec 0).
Qed.

Lemma to_u32_small x : 0 <= x < u32_mod -> to_u32 x = x.
Proof. apply Z.mod_small. Qed.

Lemma init_mctx_ok : mctx_ok init_mctx.
Proof.
  split; [reflexivity|]. split; [constructor|]. split; [intros p []|]. split; reflexivity.
Qed.

(** The managed buffers' bookkeeping holds from [npu_init] on: every
    successful [npu_buffer_alloc] and every [npu_buffer_free] of a live
    handle (whatever [munmap] and the driver answer) keeps exactly one slot
    per live buffer, [active_buffers] equal to the number of occupied slots
    and [total_allocated] equal to the sum of their sizes (modulo 2^64), so
    [npu_get_memory_stats] reports them; provided [malloc] returns a fresh,
    non-NULL address. *)
Theorem managed_bookkeeping :
  mctx_ok init_mctx /\
  (forall c size flags addr reply, mctx_ok c ->
     (forall p, addr = Some p -> p <> 0 /\ heap c p = None) ->
     mctx_ok (snd (npu_buffer_alloc size flags addr reply c))) /\
  (forall c p munmap_ok free_ok, mctx_ok c -> In p (live (managed_buffers c)) ->
     mctx_ok (snd (npu_buffer_free p munmap_ok free_ok c))) /\
  (forall c, mctx_ok c ->
     npu_get_memory_stats c =
     (to_u64 (slot_sum (heap c) (managed_buffers c)),
      to_u64 (256 * 1024 * 1024 - slot_sum (heap c) (managed_buffers c)),
      slot_count (managed_buffers c))).
Proof.
  split; [|split; [|split]].
  - exact init_mctx_ok.
  - intros c size flags addr reply Hok Hfresh.
    pose proof Hok as (Hl & Hnd & Hlive & Htot & Hact).
    unfold npu_buffer_alloc.
    destruct (size =? 0); [exact Hok|].
    destruct (find_buffer_slot_spec c Hl) as [[E _]|(j & E & Hj)].
    { rewrite E. exact Hok. }
    rewrite E. replace (Z.of_nat j <? 0) with false by (symmetry; apply Z.ltb_ge; lia).
    destruct addr as [p|]; [|exact Hok].
    destruct reply as [[id phys]|]; [|exact Hok].
    destruct (Hfresh p eq_refl) as [Hp0 Hpf].
    assert (Hpn : ~ In p (live (managed_buffers c))).
    { intros Hin. apply (proj2 (Hlive p Hin)). exact Hpf. }
    cbn [snd managed_buffers heap total_allocated active_buffers]. rewrite Nat2Z.id.
    pose proof (set_nth_none_live j p _ Hj) as Hperm.
    unfold mctx_ok. cbn [managed_buffers heap total_allocated active_buffers].
    split; [rewrite length_set_nth; exact Hl|].
    split; [apply (Permutation_NoDup (Permutation_sym Hperm)); constructor; assumption|].
    split.
    { intros q Hq. apply (Permutation_in _ Hperm) in Hq. unfold heap_upd.
      destruct (Z.eqb_spec q p) as [->|Hne]; [split; [exact Hp0|discriminate]|].
      destruct Hq as [->|Hq]; [congruence|]. apply Hlive, Hq. }
    split.
    + rewrite slot_sum_set_nth by exact Hj.
      rewrite (slot_sum_ext (heap_upd (heap c) p _) (heap c)).
      * unfold size_of at 1, heap_upd at 1. rewrite Z.eqb_refl. cbn [nb_size].
        rewrite Htot. unfold to_u64. rewrite Zplus_mod_idemp_l. f_equal. lia.
      * intros q Hq. unfold size_of, heap_upd.
        destruct (Z.eqb_spec q p) as [->|]; [contradiction|reflexivity].
    + rewrite slot_count_set_nth by exact Hj. rewrite Hact.
      pose proof (slot_count_le (managed_buffers c)). unfold slot_count in *.
      apply to_u32_small. rewrite Hl in *. unfold MAX_MANAGED_BUFFERS, u32_mod in *. lia.
  - intros c p munmap_ok free_ok (Hl & Hnd & Hlive & Htot & Hact) Hin.
    destruct (Hlive p Hin) as [Hp0 Hpb].
    unfold npu_buffer_free. rewrite (proj2 (Z.eqb_neq p 0) Hp0).
    destruct (heap c p) as [b|] eqn:Hb; [|contradiction].
    (* the optional unmap keeps slots, counters and every size *)
    set (c1 := if nb_is_mapped b && negb (nb_mapped_ptr b =? 0)
               then snd (npu_buffer_unmap p (nb_mapped_ptr b) munmap_ok c) else c).
    assert (Hc1 : managed_buffers c1 = managed_buffers c /\ total_allocated c1 = total_allocated c /\
                  active_buffers c1 = active_buffers c /\
                  (forall q, size_of (heap c1) q = size_of (heap c) q) /\
                  (forall q, heap c q <> None -> heap c1 q <> None)).
    { subst c1. destruct (nb_is_mapped b && negb (nb_mapped_ptr b =? 0)) eqn:Hm; [|repeat split; auto].
      apply andb_prop in Hm as [Hm1 Hm2]. rewrite negb_true_iff in Hm2.
      unfold npu_buffer_unmap. rewrite (proj2 (Z.eqb_neq p 0) Hp0), Hm2. cbn [orb].
      rewrite Hb, Hm1, Z.eqb_refl. cbn [negb orb].
      destruct munmap_ok; cbn [negb snd]; [|repeat split; auto].
      cbn [managed_buffers heap total_allocated active_buffers].
      split; [reflexivity|]. split; [reflexivity|]. split; [reflexivity|]. split.
      - intros q. unfold size_of, heap_upd. destruct (Z.eqb_spec q p) as [->|]; [rewrite Hb|]; reflexivity.
      - intros q Hq. unfold heap_upd. destruct (q =? p); [discriminate|exact Hq]. }
    destruct Hc1 as (Em & Et & Ea & Es & Eh).
    destruct free_ok; cbn [negb snd]; unfold mctx_ok.
    2:{ split; [rewrite Em; exact Hl|]. split; [rewrite Em; exact Hnd|].
        split; [intros q Hq; rewrite Em in Hq; destruct (Hlive q Hq); split; auto|].
        split; [rewrite Et, Em, Htot; f_equal; apply slot_sum_ext; intros q _; symmetry; apply Es|].
        rewrite Ea, Em; exact Hact. }
    cbn [managed_buffers heap total_allocated active_buffers]. rewrite Em, Et, Ea.
    pose proof (clear_slot_live p _ Hin Hnd) as Hperm.
    assert (Hnd' : NoDup (p :: live (clear_slot p (managed_buffers c))))
      by (apply (Permutation_NoDup Hperm), Hnd).
    inversion Hnd' as [|? ? Hpn Hnd2]; subst.
    split; [rewrite length_clear_slot; exact Hl|].
    split; [exact Hnd2|].
    split.
    { intros q Hq. assert (Hq' : In q (live (managed_buffers c)))
        by (apply (Permutation_in _ (Permutation_sym Hperm)); right; exact Hq).
      unfold heap_upd. destruct (Z.eqb_spec q p) as [->|Hne]; [contradiction|].
      destruct (Hlive q Hq'). split; auto. }
    split.
    + rewrite Htot, (clear_slot_sum (heap c) p _ Hin Hnd).
      rewrite (slot_sum_ext (heap_upd (heap c1) p None) (heap c)).
      * unfold size_of at 1. rewrite Hb. unfold to_u64. rewrite Zminus_mod_idemp_l. f_equal. lia.
      * intros q Hq. unfold size_of at 1, heap_upd.
        destruct (Z.eqb_spec q p) as [->|]; [contradiction|]. apply Es.
    + rewrite Hact, (clear_slot_count p _ Hin).
      pose proof (slot_count_le (clear_slot p (managed_buffers c))) as Hle.
      rewrite length_clear_slot, Hl in Hle.
      assert (Hge : 0 <= slot_count (clear_slot p (managed_buffers c))) by (unfold slot_count; lia).
      rewrite Z.add_simpl_r. apply to_u32_small. unfold MAX_MANAGED_BUFFERS, u32_mod in *. lia.
  - intros c (_ & _ & _ & Htot & Hact). unfold npu_get_memory_stats. rewrite Htot, Hact.
    unfold to_u64. rewrite Zminus_mod_idemp_r. reflexivity.
Qed.

Lemma clear_slot_set_nth j p l :
  nth_error l j = Some None -> ~ In p (live l) -> clear_slot p (set_nth j (Some p) l) = l.
Proof.
  revert j. induction l as [|o l IH]; intros [|j] H Hp; try discriminate; cbn in H.
  - injection H as ->. cbn. rewrite Z.eqb_refl. reflexivity.
  - cbn [set_nth]. destruct o as [q|].
    + cbn [clear_slot]. cbn in Hp. fold (live l) in Hp.
      destruct (Z.eqb_spec q p) as [->|_]; [exfalso; apply Hp; left; reflexivity|].
      rewrite (IH j H); [reflexivity|]. intros Hin; apply Hp; right; exact Hin.
    + cbn [clear_slot]. rewrite (IH j H Hp). reflexivity.
Qed.

(** Allocating a managed buffer and freeing it again (the driver accepting
    both ioctls) gives back the slot table, the counters and so the memory
    statistics, and leaves every heap object as it was, when the bookkeeping
    holds, the size is nonzero, a slot is free and [malloc] returns a fresh
    non-NULL address. *)
Theorem buffer_alloc_free_round_trip c size flags p id phys munmap_ok :
  mctx_ok c -> size <> 0 -> p <> 0 -> heap c p = None -> In None (managed_buffers c) ->
  let '(o, c1) := npu_buffer_alloc size flags (Some p) (Some (id, phys)) c in
  o = Some p /\
  let '(r, c2) := npu_buffer_free p munmap_ok true c1 in
  r = Lib.NPU_SUCCESS /\ managed_buffers c2 = managed_buffers c /\
  (forall q, heap c2 q = heap c q) /\
  total_allocated c2 = total_allocated c /\ active_buffers c2 = active_buffers c /\
  npu_get_memory_stats c2 = npu_get_memory_stats c.
Proof.
  intros Hok Hs Hp0 Hpf Hfree.
  pose proof Hok as (Hl & Hnd & Hlive & Htot & Hact).
  assert (Hpn : ~ In p (live (managed_buffers c))).
  { intros Hin. apply (proj2 (Hlive p Hin)). exact Hpf. }
  unfold npu_buffer_alloc. rewrite (proj2 (Z.eqb_neq size 0) Hs).
  destruct (find_buffer_slot_spec c Hl) as [[_ Hn]|(j & E & Hj)]; [contradiction|].
  rewrite E. replace (Z.of_nat j <? 0) with false by (symmetry; apply Z.ltb_ge; lia).
  rewrite Nat2Z.id. split; [reflexivity|].
  unfold npu_buffer_free. rewrite (proj2 (Z.eqb_neq p 0) Hp0).
  cbn [heap managed_buffers total_allocated active_buffers]. unfold heap_upd at 1. rewrite Z.eqb_refl.
  cbn [nb_is_mapped andb negb].
  assert (Ht : to_u64 (to_u64 (total_allocated c + size) - size) = total_allocated c).
  { unfold to_u64. rewrite Zminus_mod_idemp_l, Z.add_simpl_r, Htot. unfold to_u64.
    apply Z.mod_mod. unfold u64_mod. lia. }
  assert (Ha : to_u32 (to_u32 (active_buffers c + 1) - 1) = active_buffers c).
  { unfold to_u32. rewrite Zminus_mod_idemp_l, Z.add_simpl_r. fold (to_u32 (active_buffers c)). apply to_u32_small.
    pose proof (slot_count_le (managed_buffers c)).
    assert (0 <= slot_count (managed_buffers c)) by (unfold slot_count; lia).
    rewrite Hact, Hl in *. unfold MAX_MANAGED_BUFFERS, u32_mod in *. lia. }
  split; [reflexivity|]. cbn [managed_buffers heap total_allocated active_buffers nb_size].
  rewrite Ht, Ha, (clear_slot_set_nth j p _ Hj Hpn).
  split; [reflexivity|]. split.
  { intros q. unfold heap_upd. destruct (Z.eqb_spec q p) as [->|]; [symmetry; exact Hpf|reflexivity]. }
  split; [reflexivity|]. split; [reflexivity|].
  reflexivity.
Qed.

(** [npu_buffer_alloc] returns NULL and changes nothing when the 64 slots
    are all taken, whatever [malloc] and the driver would answer. *)
Theorem buffer_alloc_full_table c size flags addr reply :
  length (managed_buffers c) = MAX_MANAGED_BUFFERS -> ~ In None (managed_buffers c) ->
  npu_buffer_alloc size flags addr reply c = (None, c).
Proof.
  intros Hl Hn. unfold npu_buffer_alloc. destruct (size =? 0); [reflexivity|].
  destruct (find_buffer_slot_spec c Hl) as [[E _]|(j & _ & Hj)].
  - rewrite E. reflexivity.
  - exfalso. apply Hn. eapply nth_error_In. exact Hj.
Qed.

Lemma managed_bookkeeping_witness :
  mctx_ok (snd (npu_buffer_alloc 64 0 (Some 4096) (Some (1, 8192)) init_mctx)).
Proof.
  apply (proj1 (proj2 managed_bookkeeping)); [exact (proj1 managed_bookkeeping)|].
  intros q Hq. injection Hq as <-. split; [discriminate|reflexivity].
Defined.

Lemma buffer_alloc_free_round_trip_witness :
  let '(o, c1) := npu_buffer_alloc 64 0 (Some 4096) (Some (1, 8192)) init_mctx in
  o = Some 4096 /\
  let '(r, c2) := npu_buffer_free 4096 true true c1 in
  r = Lib.NPU_SUCCESS /\ managed_buffers c2 = managed_buffers init_mctx /\
  (forall q, heap c2 q = heap init_mctx q) /\
  total_allocated c2 = total_allocated init_mctx /\ active_buffers c2 = active_buffers init_mctx /\
  npu_get_memory_stats c2 = npu_get_memory_stats init_mctx.
Proof.
  apply (buffer_alloc_free_round_trip init_mctx 64 0 4096 1 8192 true).
  - exact init_mctx_ok.
  - discriminate.
  - discriminate.
  - reflexivity.
  - cbv. left. reflexivity.
Defined.

Lemma buffer_alloc_full_table_witness :
  npu_buffer_alloc 64 0 (Some 8192) (Some (1, 8192)) full_mctx = (None, full_mctx).
Proof.
  apply buffer_alloc_full_table.
  - reflexivity.
  - intros H. apply repeat_spec in H. discriminate.
Defined.

End ManagedFacts.

Module TensorFacts.
Import Tensor.

Lemma firstn_set_nth {A} m (x : A) ds :
  (m < length ds)%nat -> firstn (S m) (set_nth m x ds) = firstn m ds ++ [x].
Proof.
  revert m. induction ds as [|y ds IH]; intros [|m] H; cbn in H |- *; try lia.
  - reflexivity.
  - f_equal. exact (IH m ltac:(lia)).
Qed.

Lemma skipn_set_nth {A} m k (x : A) ds :
  (m < k)%nat -> skipn k (set_nth m x ds) = skipn k ds.
Proof.
  revert m k. induction ds as [|y ds IH]; intros [|m] [|k] H; cbn; try lia; try reflexivity.
  apply IH. lia.
Qed.

Lemma fold_set_nth l m (ds : list Z) :
  (m + length l <= length ds)%nat ->
  fold_left (fun ds '(i, s) => set_nth i s ds) (combine (seq m (length l)) l) ds =
  firstn m ds ++ l ++ skipn (m + length l) ds.
Proof.
  revert m ds. induction l as [|x l IH]; intros m ds H.
  - cbn. rewrite Nat.add_0_r. symmetry. apply firstn_skipn.
  - cbn [length seq combine fold_left]. cbn [length] in H.
    rewrite IH by (rewrite ManagedFacts.length_set_nth; lia).
    rewrite firstn_set_nth by lia. rewrite skipn_set_nth by lia.
    rewrite <- app_assoc. cbn [app]. rewrite <- Nat.add_succ_comm. reflexivity.
Qed.

Lemma skipn_repeat' {A} k n (x : A) : skipn k (repeat x n) = repeat x (n - k).
Proof.
  revert n. induction k as [|k IH]; intros [|n]; cbn; try reflexivity. apply IH.
Qed.

Lemma fold_u64_prod l a :
  fold_left (fun acc s => to_u64 (acc * s)) l (to_u64 a) = to_u64 (a * fold_right Z.mul 1 l).
Proof.
  revert a. induction l as [|x l IH]; intros a; cbn [fold_left fold_right].
  - rewrite Z.mul_1_r. reflexivity.
  - replace (to_u64 (to_u64 a * x)) with (to_u64 (a * x))
      by (unfold to_u64; rewrite Zmult_mod_idemp_l; reflexivity).
    rewrite IH. f_equal. ring.
Qed.

Lemma u32_prod4 a b c d : to_u32 (to_u32 (to_u32 (a * b) * c) * d) = to_u32 (a * b * c * d).
Proof. unfold to_u32. rewrite (Zmult_mod_idemp_l (a * b) c), Zmult_mod_idemp_l. reflexivity. Qed.

(** [npu_reshape] succeeds exactly when [num_dims] is between 1 and 4 and
    the product of the new shape (modulo 2^64) equals the product of the
    input's four dimensions (modulo 2^32).  It then sets the first
    [num_dims] dimensions of the output to the new shape and the others to
    0x01010101 (the [memset] fills bytes), keeping the output's data
    pointer, size and type; it fails with [NPU_ERROR_INVALID] leaving the
    output untouched otherwise.  This holds when [new_shape] has at least
    [num_dims] entries. *)
Theorem reshape_outcomes input output new_shape num_dims :
  (Z.to_nat num_dims <= length new_shape)%nat ->
  let '(r, o) := npu_reshape input output new_shape num_dims in
  (r = Lib.NPU_SUCCESS <->
   1 <= num_dims <= 4 /\
   to_u64 (fold_right Z.mul 1 (firstn (Z.to_nat num_dims) new_shape)) =
   to_u32 (dim input 0 * dim input 1 * dim input 2 * dim input 3)) /\
  (r = Lib.NPU_ERROR_INVALID /\ o = output \/
   r = Lib.NPU_SUCCESS /\
   dims o = firstn (Z.to_nat num_dims) new_shape ++ repeat 16843009 (4 - Z.to_nat num_dims) /\
   data o = data output /\ size o = size output /\ dtype o = dtype output).
Proof.
  intros Hlen. unfold npu_reshape.
  destruct (Z.leb_spec num_dims 0) as [Hn|Hn]; cbn [orb].
  { split; [split; [discriminate|lia]|]. left. split; reflexivity. }
  destruct (Z.gtb_spec num_dims 4) as [Hn'|Hn'].
  { split; [split; [discriminate|lia]|]. left. split; reflexivity. }
  change 1 with (to_u64 1) at 1. rewrite fold_u64_prod, Z.mul_1_l, u32_prod4.
  destruct (Z.eqb_spec (to_u64 (fold_right Z.mul 1 (firstn (Z.to_nat num_dims) new_shape)))
              (to_u32 (dim input 0 * dim input 1 * dim input 2 * dim input 3))) as [E|E];
    cbn [negb].
  - split; [split; [intros _; split; [lia|exact E]|intros _; reflexivity]|]. right. split; [reflexivity|].
    cbn [dims data size dtype]. split; [|auto].
    assert (Hl : length (firstn (Z.to_nat num_dims) new_shape) = Z.to_nat num_dims)
      by (rewrite length_firstn; lia).
    rewrite <- Hl at 1. rewrite fold_set_nth by (rewrite Hl; cbn; lia).
    cbn [firstn app]. rewrite Hl, skipn_repeat'. reflexivity.
  - split; [split; [discriminate|intros [_ H]; contradiction]|]. left. split; reflexivity.
Qed.

Lemma length_splice buf off src :
  (Z.to_nat off + length src <= length buf)%nat -> length (Lib.splice buf off src) = length buf.
Proof.
  intros H. unfold Lib.splice. rewrite !length_app, length_firstn, length_skipn. lia.
Qed.

Lemma splice_firstn buf off src :
  (Z.to_nat off + length src <= length buf)%nat ->
  firstn (Z.to_nat off + length src) (Lib.splice buf off src) = firstn (Z.to_nat off) buf ++ src.
Proof.
  intros H. unfold Lib.splice.
  replace (Z.to_nat off + length src)%nat with (length (firstn (Z.to_nat off) buf) + length src)%nat
    by (rewrite length_firstn; lia).
  rewrite firstn_app_2. f_equal.
  replace (length src) with (length src + 0)%nat at 1 by lia.
  rewrite firstn_app_2. cbn. apply app_nil_r.
Qed.

Lemma splice_skipn buf off src k :
  (Z.to_nat off + length src <= length buf)%nat -> (Z.to_nat off + length src <= k)%nat ->
  skipn k (Lib.splice buf off src) = skipn k buf.
Proof.
  intros H Hk. unfold Lib.splice. rewrite app_assoc, skipn_app.
  rewrite skipn_all2 by (rewrite length_app, length_firstn; lia).
  rewrite length_app, length_firstn, skipn_skipn. cbn [app]. f_equal. lia.
Qed.

Lemma sum_sizes_nonneg ts :
  (forall t, In t ts -> 0 <= size t <= Z.of_nat (length (mem t))) ->
  0 <= fold_right Z.add 0 (map size ts).
Proof.
  induction ts as [|t ts IH]; intros H; cbn; [lia|].
  pose proof (H t (or_introl eq_refl)). pose proof (IH (fun t' Ht' => H t' (or_intror Ht'))). lia.
Qed.

Lemma concat_loop_some ts rest off out :
  (forall t, In t ts -> 0 <= size t <= Z.of_nat (length (mem t))) ->
  0 <= off -> off + fold_right Z.add 0 (map size ts) <= Z.of_nat (length out) ->
  off + fold_right Z.add 0 (map size ts) < u64_mod ->
  concat_loop (map Some ts ++ rest) off out =
  concat_loop rest (off + fold_right Z.add 0 (map size ts))
    (firstn (Z.to_nat off) out ++ concat (map (fun t => firstn (Z.to_nat (size t)) (mem t)) ts)
     ++ skipn (Z.to_nat (off + fold_right Z.add 0 (map size ts))) out).
Proof.
  revert off out. induction ts as [|t ts IH]; intros off out H H0 Hl Hu; cbn [map app concat_loop].
  - cbn [fold_right concat app]. rewrite Z.add_0_r, firstn_skipn. reflexivity.
  - cbn [fold_right map] in Hl, Hu |- *.
    pose proof (H t (or_introl eq_refl)) as Ht.
    assert (H' : forall t', In t' ts -> 0 <= size t' <= Z.of_nat (length (mem t')))
      by (intros t' Ht'; apply H; right; exact Ht').
    pose proof (sum_sizes_nonneg ts H') as Hs.
    set (S' := fold_right Z.add 0 (map size ts)) in *.
    set (ch := firstn (Z.to_nat (size t)) (mem t)).
    assert (Hch : length ch = Z.to_nat (size t)) by (subst ch; rewrite length_firstn; lia).
    assert (Hfit : (Z.to_nat off + length ch <= length out)%nat) by (rewrite Hch; lia).
    replace (to_u64 (off + size t)) with (off + size t)
      by (symmetry; apply Z.mod_small; unfold u64_mod in *; lia).
    rewrite IH by (try rewrite length_splice by exact Hfit; lia || exact H').
    replace (Z.to_nat (off + size t)) with (Z.to_nat off + length ch)%nat by (rewrite Hch; lia).
    rewrite splice_firstn by exact Hfit.
    rewrite splice_skipn by (exact Hfit || lia).
    rewrite Z.add_assoc. cbn [concat map]. rewrite <- !app_assoc. reflexivity.
Qed.

(** [npu_concat] copies its inputs one after the other to the start of
    the output's data and leaves the rest of it and the descriptor as they
    were: [NPU_SUCCESS] when the [num_inputs] entries are all non-NULL,
    [NPU_ERROR_INVALID] at the first NULL entry, with the inputs before it
    already copied.  This holds when each input holds [size] bytes and
    their sizes add up to no more than the output's buffer. *)
Theorem concat_outcomes ts rest output :
  (forall t, In t ts -> 0 <= size t <= Z.of_nat (length (mem t))) ->
  fold_right Z.add 0 (map size ts) <= Z.of_nat (length (mem output)) ->
  fold_right Z.add 0 (map size ts) < u64_mod ->
  let out := concat (map (fun t => firstn (Z.to_nat (size t)) (mem t)) ts)
             ++ skipn (Z.to_nat (fold_right Z.add 0 (map size ts))) (mem output) in
  let output' := mk_tensor (data output) out (size output) (dims output) (dtype output) in
  (forall num_inputs, num_inputs = Z.of_nat (length ts) -> ts <> [] ->
   npu_concat (map Some ts ++ rest) num_inputs output = (Lib.NPU_SUCCESS, output')) /\
  (forall num_inputs, Z.of_nat (length ts) < num_inputs ->
   npu_concat (map Some ts ++ None :: rest) num_inputs output = (Lib.NPU_ERROR_INVALID, output')).
Proof.
  intros H Hl Hu out output'. pose proof (sum_sizes_nonneg ts H) as Hs. split.
  - intros num_inputs -> Hne. unfold npu_concat.
    destruct ts as [|t0 ts0]; [contradiction|].
    replace (Z.of_nat (length (t0 :: ts0)) <=? 0) with false
      by (symmetry; apply Z.leb_gt; cbn [length]; lia).
    rewrite Nat2Z.id.
    replace (length (t0 :: ts0)) with (length (map Some (t0 :: ts0)) + 0)%nat
      by (rewrite length_map; lia).
    rewrite firstn_app_2, firstn_O, app_nil_r.
    rewrite <- (app_nil_r (map Some (t0 :: ts0))).
    rewrite concat_loop_some by (exact H || lia). reflexivity.
  - intros num_inputs Hn. unfold npu_concat.
    replace (num_inputs <=? 0) with false by (symmetry; apply Z.leb_gt; lia).
    replace (Z.to_nat num_inputs) with (length (map Some ts) + S (Z.to_nat num_inputs - length ts - 1))%nat
      by (rewrite length_map; lia).
    rewrite firstn_app_2. cbn [firstn].
    rewrite concat_loop_some by (exact H || lia). reflexivity.
Qed.

Lemma element_size_cases dt : element_size dt = 1 \/ element_size dt = 2 \/ element_size dt = 4.
Proof. unfold element_size. repeat destruct (_ =? _); auto. Qed.

(** [npu_validate_tensor] accepts a descriptor built by
    [npu_create_tensor] exactly when the data pointer is non-NULL, the type
    is one of the four [npu_dtype_t] values and the product of the four
    dimensions is nonzero modulo 2^32: a zero dimension is refused only
    through the size, and dimensions whose product is a multiple of 2^32
    are refused as well. *)
Theorem validate_created_tensor data0 mem0 n c h w dtype0 :
  npu_validate_tensor (npu_create_tensor data0 mem0 n c h w dtype0) =
  if (data0 =? 0) || (to_u32 (n * c * h * w) =? 0) || (dtype0 <? 0) || (dtype0 >? 3)
  then Lib.NPU_ERROR_INVALID else Lib.NPU_SUCCESS.
Proof.
  unfold npu_validate_tensor, npu_create_tensor. cbn [data size dtype]. rewrite u32_prod4.
  destruct (data0 =? 0); [reflexivity|]. cbn [orb].
  set (P := to_u32 (n * c * h * w)).
  assert (HP : 0 <= P < u32_mod) by (unfold P, to_u32, u32_mod; apply Z.mod_pos_bound; lia).
  replace (to_u64 (P * element_size dtype0) =? 0) with (P =? 0).
  - destruct (P =? 0); reflexivity.
  - destruct (Z.eqb_spec P 0) as [E0|E0].
    + rewrite E0. reflexivity.
    + symmetry. apply Z.eqb_neq. unfold to_u64. rewrite Z.mod_small.
      * destruct (element_size_cases dtype0) as [E|[E|E]]; rewrite E; lia.
      * unfold u32_mod, u64_mod in *.
        destruct (element_size_cases dtype0) as [E|[E|E]]; rewrite E; lia.
Qed.

(** A tensor of 65536 x 65536 x 1 x 1 elements and one of none. *)
Lemma reshape_outcomes_witness :
  let input := mk_tensor 4096 [] 0 [65536; 65536; 1; 1] NPU_DTYPE_FLOAT32 in
  let output := mk_tensor 8192 [] 0 [1; 1; 1; 1] NPU_DTYPE_FLOAT32 in
  let '(r, o) := npu_reshape input output [0] 1 in
  (r = Lib.NPU_SUCCESS <->
   1 <= 1 <= 4 /\
   to_u64 (fold_right Z.mul 1 (firstn (Z.to_nat 1) [0])) =
   to_u32 (dim input 0 * dim input 1 * dim input 2 * dim input 3)) /\
  (r = Lib.NPU_ERROR_INVALID /\ o = output \/
   r = Lib.NPU_SUCCESS /\
   dims o = firstn (Z.to_nat 1) [0] ++ repeat 16843009 (4 - Z.to_nat 1) /\
   data o = data output /\ size o = size output /\ dtype o = dtype output).
Proof.
  intros input output. apply reshape_outcomes. cbn. lia.
Defined.

Lemma concat_outcomes_witness :
  let ts := [mk_tensor 4096 [1; 2] 2 [1; 1; 1; 2] NPU_DTYPE_INT8;
             mk_tensor 8192 [3; 4; 5] 3 [1; 1; 1; 3] NPU_DTYPE_INT8] in
  let output := mk_tensor 12288 [0; 0; 0; 0; 0; 0] 6 [1; 1; 1; 6] NPU_DTYPE_INT8 in
  let out := concat (map (fun t => firstn (Z.to_nat (size t)) (mem t)) ts)
             ++ skipn (Z.to_nat (fold_right Z.add 0 (map size ts))) (mem output) in
  let output' := mk_tensor (data output) out (size output) (dims output) (dtype output) in
  npu_concat (map Some ts) 2 output = (Lib.NPU_SUCCESS, output') /\
  npu_concat (map Some ts ++ [None]) 3 output = (Lib.NPU_ERROR_INVALID, output').
Proof.
  intros ts output out output'.
  assert (Hw : forall t, In t ts -> 0 <= size t <= Z.of_nat (length (mem t)))
    by (intros t [<-|[<-|[]]]; cbn; lia).
  split.
  - rewrite <- (app_nil_r (map Some ts)).
    apply (proj1 (concat_outcomes ts [] output Hw ltac:(cbn; lia) ltac:(cbn; lia)) 2).
    + reflexivity.
    + discriminate.
  - apply (proj2 (concat_outcomes ts [] output Hw ltac:(cbn; lia) ltac:(cbn; lia)) 3).
    cbn. lia.
Defined.

End TensorFacts.
